(** * libsmc: the SMC client of [src/smc.c], embedded in Rocq

    The C functions of [smc.c] are translated one by one, keeping their
    names.  Machine integers are [Z] with the wrap-around written out,
    C strings are [string]/[list ascii] read up to the first NUL, arrays
    are lists written by index, and the calls into the AppleSMC kernel
    extension thread an explicit [world] through a small state monad. *)

From Stdlib Require Import ZArith Lia Bool Ascii String Floats Uint63.
From stdpp Require Import base list.

Local Open Scope Z_scope.
#[local] Set Warnings "-inexact-float".

(** ** Machine integers *)

(** Conversion to [uint8_t] and to [uint32_t]/[unsigned int]. *)
Definition wrap8 (x : Z) : Z := x mod 2 ^ 8.
Definition wrap32 (x : Z) : Z := x mod 2 ^ 32.

(** [a[i]] on an array of bytes; every array of the program has a fixed
    size and is only read inside it. *)
Definition idx (a : list Z) (i : nat) : Z := default 0 (a !! i).

(** ** C strings *)

(** Value of a [char] as an [int]: [char] is signed on the Intel Macs the
    library targets. *)
Definition char_val (c : ascii) : Z :=
  let n := Z.of_N (N_of_ascii c) in
  if n <? 128 then n else n - 256.

(** Value of a [char] as an [unsigned char]. *)
Definition uchar_val (c : ascii) : Z := Z.of_N (N_of_ascii c).

(** The [char] an integer converts to. *)
Definition to_char (x : Z) : ascii := ascii_of_N (Z.to_N (wrap8 x)).

Definition is_nul (c : ascii) : bool := Ascii.eqb c Ascii.zero.

(** [strlen]: characters before the first NUL (the end of a Rocq string
    stands for the terminator of a literal). *)
Fixpoint strlen (s : string) : nat :=
  match s with
  | EmptyString => 0
  | String c s' => if is_nul c then 0 else S (strlen s')
  end.

(** [key[i]]; reading the terminator gives NUL. *)
Fixpoint char_at (s : string) (i : nat) : ascii :=
  match s, i with
  | EmptyString, _ => Ascii.zero
  | String c _, O => c
  | String _ s', S i' => char_at s' i'
  end.

(** [strcmp] on two character buffers, as the difference of the first
    pair of [unsigned char]s that differ. *)
Fixpoint strcmp (s1 s2 : list ascii) : Z :=
  match s1, s2 with
  | [], [] => 0
  | [], c2 :: _ => 0 - uchar_val c2
  | c1 :: _, [] => uchar_val c1
  | c1 :: t1, c2 :: t2 =>
      if Ascii.eqb c1 c2
      then (if is_nul c1 then 0 else strcmp t1 t2)
      else uchar_val c1 - uchar_val c2
  end.

(** ** Constants of [smc.h] with a fixed meaning in [smc.c] *)

(** Modelled from the spec: [smc.h] is not part of the sources.  A key is
    "exactly 4 characters" (spec 3; [smc.c]: "SMC key is expected to be 4
    bytes - thus 4 chars"). *)
Definition SMC_KEY_SIZE : nat := 4.

(** Modelled from the spec: [smc.h] is not part of the sources.  The type
    tag is a "4-character tag" (spec 3; [smc.c]: "4 byte multi-character
    constant"). *)
Definition DATA_TYPE_SIZE : nat := 4.

(** ** Helpers - type conversion *)

(** [from_fpe2]: [ans += data[0] << 6; ans += data[1] << 2;] on an
    [unsigned int]. *)
Definition from_fpe2 (data : list Z) : Z :=
  let ans := 0 in
  let ans := wrap32 (ans + Z.shiftl (idx data 0) 6) in
  let ans := wrap32 (ans + Z.shiftl (idx data 1) 2) in
  ans.

(** [to_fpe2]: [data[0] = val >> 6; data[1] = (val << 2) ^ (data[0] << 8);]
    with [val] an [unsigned int] and [data] an array of [uint8_t]. *)
Definition to_fpe2 (val : Z) (data : list Z) : list Z :=
  let data := <[0%nat := wrap8 (Z.shiftr val 6)]> data in
  let data :=
    <[1%nat := wrap8 (Z.lxor (wrap32 (Z.shiftl val 2))
                             (Z.shiftl (idx data 0) 8))]> data in
  data.

(** The encoder the spec proposes as a simplification:
    [bytes[1] = value << 2]. *)
Definition to_fpe2_simplified (val : Z) (data : list Z) : list Z :=
  let data := <[0%nat := wrap8 (Z.shiftr val 6)]> data in
  let data := <[1%nat := wrap8 (wrap32 (Z.shiftl val 2))]> data in
  data.

(** One turn of the loop of [to_uint32_t]:
    [ans += key[i] << shift; shift -= 8;], both [uint32_t].  C leaves the
    shift of a negative [char] undefined; the model takes the two's
    complement result. *)
Definition to_uint32_t_step (key : string) (st : Z * Z) (i : nat) : Z * Z :=
  let '(ans, shift) := st in
  (wrap32 (ans + Z.shiftl (char_val (char_at key i)) shift),
   wrap32 (shift - 8)).

Definition to_uint32_t (key : string) : Z :=
  let ans := 0 in
  let shift := 24 in
  if negb (Nat.eqb (strlen key) SMC_KEY_SIZE) then 0
  else fst (fold_left (to_uint32_t_step key) (seq 0 SMC_KEY_SIZE) (ans, shift)).

(** One turn of the loop of [to_string]:
    [dataType[i] = (val >> shift) & 0xff; shift -= 8;], [shift] an [int]. *)
Definition to_string_step (val : Z) (st : list ascii * Z) (i : nat)
  : list ascii * Z :=
  let '(dataType, shift) := st in
  (<[i := to_char (Z.land (Z.shiftr val shift) 255)]> dataType, shift - 8).

Definition to_string (val : Z) (dataType : list ascii) : list ascii :=
  let shift := 24 in
  fst (fold_left (to_string_step val) (seq 0 DATA_TYPE_SIZE) (dataType, shift)).

(** Printable ASCII: codes 32 to 126. *)
Definition printable (c : ascii) : Prop := 32 <= uchar_val c <= 126.

(** ** Helpers - temperature conversion *)

Inductive tmp_unit_t := CELSIUS | FAHRENHEIT | KELVIN.

(** [(tmp * 1.8) + 32] on [double]. *)
Definition to_fahrenheit (tmp : float) : float := (tmp * 1.8 + 32)%float.

(** [tmp + 273.15] on [double]. *)
Definition to_kelvin (tmp : float) : float := (tmp + 273.15)%float.

(** Conversion of a [uint8_t] to [double]. *)
Definition double_of_uint8 (b : Z) : float := PrimFloat.of_uint63 (Uint63.of_Z b).

(** ** IOKit *)

(** [kern_return_t] is a C [int]; the codes below are those of
    [IOKit/IOReturn.h] ([iokit_common_err(x)] is [0xe0000000 | x], read as
    a signed 32-bit integer) and [err_get_code] is the macro of
    [mach/error.h], [(err) & 0x3fff]. *)
Definition kern_return_t := Z.
Definition kIOReturnSuccess : kern_return_t := 0.
Definition kIOReturnError : kern_return_t := 0xe00002bc - 2 ^ 32.
Definition kIOReturnBadArgument : kern_return_t := 0xe00002c2 - 2 ^ 32.
Definition err_get_code (err : kern_return_t) : kern_return_t := Z.land err 0x3fff.

(** ** The structures of [smc.h] *)

(** Modelled from the spec: [smc.h] is not part of the sources.  The
    "type/metadata sub-record (size + 32-bit type tag)" of the wire frame
    (spec 6), with the two fields [smc.c] uses. *)
Module keyInfo.
Record t := mk { dataSize : Z; dataType : Z }.
Definition zero : t := {| dataSize := 0; dataType := 0 |}.
End keyInfo.

(** Modelled from the spec: [smc.h] is not part of the sources.  The wire
  frame of spec 6 with the fields [smc.c] reads or writes: the 32-bit
  encoded key, the sub-record, the controller's status [result], the
  8-bit operation selector [data8] and the 32-byte payload. *)
Module SMCParamStruct.
Record t := mk {
  key : Z;
  keyInfo : keyInfo.t;
  result : Z;
  data8 : Z;
  bytes : list Z;
}.
(** [memset(&s, 0, sizeof(SMCParamStruct))] *)
Definition zero : t :=
  {| key := 0; keyInfo := keyInfo.zero; result := 0; data8 := 0;
     bytes := replicate 32 0 |}.
Definition set_key (v : Z) (s : t) : t :=
  {| key := v; keyInfo := keyInfo s; result := result s; data8 := data8 s;
     bytes := bytes s |}.
Definition set_data8 (v : Z) (s : t) : t :=
  {| key := key s; keyInfo := keyInfo s; result := result s; data8 := v;
     bytes := bytes s |}.
Definition set_keyInfo_dataSize (v : Z) (s : t) : t :=
  {| key := key s;
     keyInfo := {| keyInfo.dataSize := v;
                   keyInfo.dataType := keyInfo.dataType (keyInfo s) |};
     result := result s; data8 := data8 s; bytes := bytes s |}.
Definition set_bytes (v : list Z) (s : t) : t :=
  {| key := key s; keyInfo := keyInfo s; result := result s; data8 := data8 s;
     bytes := v |}.
End SMCParamStruct.

(** Modelled from the spec: [smc.h] is not part of the sources.  The
    RawValue of spec 3 together with the protocol status: 32 payload
    bytes, the type tag as a NUL-terminated text of [DATA_TYPE_SIZE]
    characters, the size and the controller's status. *)
Record smc_return_t := mk_smc_return {
  data : list Z;
  dataType : list ascii;
  dataSize : Z;
  kSMC : Z;
}.

(** [memset(result_smc, 0, sizeof(smc_return_t))] *)
Definition smc_return_zero : smc_return_t :=
  {| data := replicate 32 0;
     dataType := replicate (S DATA_TYPE_SIZE) Ascii.zero;
     dataSize := 0; kSMC := 0 |}.

Definition set_data (v : list Z) (r : smc_return_t) : smc_return_t :=
  {| data := v; dataType := dataType r; dataSize := dataSize r; kSMC := kSMC r |}.
Definition set_dataType (v : list ascii) (r : smc_return_t) : smc_return_t :=
  {| data := data r; dataType := v; dataSize := dataSize r; kSMC := kSMC r |}.
Definition set_dataSize (v : Z) (r : smc_return_t) : smc_return_t :=
  {| data := data r; dataType := dataType r; dataSize := v; kSMC := kSMC r |}.
Definition set_kSMC (v : Z) (r : smc_return_t) : smc_return_t :=
  {| data := data r; dataType := dataType r; dataSize := dataSize r; kSMC := v |}.

(** The enumerators and type tags [smc.c] takes from [smc.h].  Their
    values are not in the sources, so the program is read for any of
    them. *)
Class smc_h := {
  kSMCSuccess : Z;
  kSMCHandleYPCEvent : Z;
  kSMCReadKey : Z;
  kSMCWriteKey : Z;
  kSMCGetKeyInfo : Z;
  DATA_TYPE_UINT8 : string;
  DATA_TYPE_FPE2 : string;
  DATA_TYPE_SP78 : string;
}.

(** The AppleSMC kernel extension behind the connection [conn]: a state of
    its own and [IOConnectCallStructMethod], which receives the selector,
    the input structure and the output buffer as it stands before the
    call, and gives the return code and the output buffer after it. *)
Class AppleSMC := {
  kext : Type;
  IOConnectCallStructMethod :
    Z -> SMCParamStruct.t -> SMCParamStruct.t -> kext ->
    kern_return_t * SMCParamStruct.t * kext;
}.

(** ** The world and its monad *)

(** What the program acts on: the driver, the input structures handed to
    it so far (oldest first) and the text printed on standard output. *)
Record world `{AppleSMC} := mk_world {
  driver : kext;
  calls : list SMCParamStruct.t;
  stdout : list string;
}.

Definition M `{AppleSMC} (A : Type) : Type := world -> A * world.

Definition ret `{AppleSMC} {A} (a : A) : M A := fun w => (a, w).

Definition bind `{AppleSMC} {A B} (m : M A) (k : A -> M B) : M B :=
  fun w => let '(a, w') := m w in k a w'.

#[export] Instance M_ret `{AppleSMC} : MRet M := @ret _.
#[export] Instance M_bind `{AppleSMC} : MBind M := fun A B k m => bind m k.

Definition printf `{AppleSMC} (s : string) : M unit :=
  fun w => (tt, {| driver := driver w; calls := calls w;
                   stdout := stdout w ++ [s] |}).

Definition newline : string := String (ascii_of_nat 10) EmptyString.

(** ** "Private" functions *)

Section Smc.
Context `{smc_h} `{AppleSMC}.

(** [call_smc]: one call of [IOConnectCallStructMethod] on the connection,
    the return code reduced by [err_get_code] when it is not
    [kIOReturnSuccess]. *)
Definition call_smc (inputStruct outputStruct : SMCParamStruct.t)
  : M (kern_return_t * SMCParamStruct.t) :=
  fun w =>
    let '(result, outputStruct, k) :=
      IOConnectCallStructMethod kSMCHandleYPCEvent inputStruct outputStruct
        (driver w) in
    let result :=
      if negb (result =? kIOReturnSuccess) then err_get_code result
      else result in
    ((result, outputStruct),
     {| driver := k; calls := calls w ++ [inputStruct]; stdout := stdout w |}).

(** The test [result != kIOReturnSuccess || outputStruct.result != kSMCSuccess]. *)
Definition failed (result : kern_return_t) (outputStruct : SMCParamStruct.t) : bool :=
  negb (result =? kIOReturnSuccess)
  || negb (SMCParamStruct.result outputStruct =? kSMCSuccess).

(** [read_smc]; the record [result_smc] points to is returned with the
    return code. *)
Definition read_smc (key : string) : M (kern_return_t * smc_return_t) :=
  let inputStruct := SMCParamStruct.zero in
  let outputStruct := SMCParamStruct.zero in
  let result_smc := smc_return_zero in
  (* First call to AppleSMC - get key info *)
  let inputStruct := SMCParamStruct.set_key (to_uint32_t key) inputStruct in
  let inputStruct := SMCParamStruct.set_data8 kSMCGetKeyInfo inputStruct in
  '(result, outputStruct) ← call_smc inputStruct outputStruct;
  let result_smc := set_kSMC (SMCParamStruct.result outputStruct) result_smc in
  if failed result outputStruct then mret (result, result_smc) else
  (* Store data for return *)
  let result_smc :=
    set_dataSize (keyInfo.dataSize (SMCParamStruct.keyInfo outputStruct))
      result_smc in
  let result_smc :=
    set_dataType
      (to_string (keyInfo.dataType (SMCParamStruct.keyInfo outputStruct))
         (dataType result_smc))
      result_smc in
  (* Second call to AppleSMC - now we can get the data *)
  let inputStruct :=
    SMCParamStruct.set_keyInfo_dataSize
      (keyInfo.dataSize (SMCParamStruct.keyInfo outputStruct)) inputStruct in
  let inputStruct := SMCParamStruct.set_data8 kSMCReadKey inputStruct in
  '(result, outputStruct) ← call_smc inputStruct outputStruct;
  let result_smc := set_kSMC (SMCParamStruct.result outputStruct) result_smc in
  if failed result outputStruct then mret (result, result_smc) else
  let result_smc := set_data (SMCParamStruct.bytes outputStruct) result_smc in
  mret (result, result_smc).

(** [write_smc]; [result_smc] comes from the caller and is returned, as
    the call leaves it, with the return code. *)
Definition write_smc (key : string) (result_smc : smc_return_t)
  : M (kern_return_t * smc_return_t) :=
  let inputStruct := SMCParamStruct.zero in
  let outputStruct := SMCParamStruct.zero in
  (* First call to AppleSMC - get key info *)
  let inputStruct := SMCParamStruct.set_key (to_uint32_t key) inputStruct in
  let inputStruct := SMCParamStruct.set_data8 kSMCGetKeyInfo inputStruct in
  '(result, outputStruct) ← call_smc inputStruct outputStruct;
  let result_smc := set_kSMC (SMCParamStruct.result outputStruct) result_smc in
  if failed result outputStruct then mret (result, result_smc) else
  (* Check data is correct *)
  if negb (dataSize result_smc
           =? keyInfo.dataSize (SMCParamStruct.keyInfo outputStruct))
  then mret (kIOReturnBadArgument, result_smc) else
  (* Second call to AppleSMC - now we can write the data *)
  let inputStruct := SMCParamStruct.set_data8 kSMCWriteKey inputStruct in
  let inputStruct :=
    SMCParamStruct.set_keyInfo_dataSize
      (keyInfo.dataSize (SMCParamStruct.keyInfo outputStruct)) inputStruct in
  (* Set data to write: the source copies into [outputStruct.bytes] *)
  let outputStruct := SMCParamStruct.set_bytes (data result_smc) outputStruct in
  '(result, outputStruct) ← call_smc inputStruct outputStruct;
  let result_smc := set_kSMC (SMCParamStruct.result outputStruct) result_smc in
  mret (result, result_smc).

(** ** "Public" functions *)

Definition is_key_valid (key : string) : M bool :=
  let ans := false in
  if negb (Nat.eqb (strlen key) SMC_KEY_SIZE) then
    _ ← printf ("ERROR: Invalid key size - must be 4 chars" ++ newline)%string;
    mret ans
  else
    (* Try a read and see if it succeeds *)
    '(result, result_smc) ← read_smc key;
    let ans :=
      if (result =? kIOReturnSuccess) && (kSMC result_smc =? kSMCSuccess)
      then true else ans in
    mret ans.

Definition get_tmp (key : string) (unit : tmp_unit_t) : M float :=
  '(result, result_smc) ← read_smc key;
  if negb ((result =? kIOReturnSuccess)
           && (dataSize result_smc =? 2)
           && (strcmp (dataType result_smc)
                 (list_ascii_of_string DATA_TYPE_SP78) =? 0))
  then mret 0%float
  else
    let tmp := double_of_uint8 (idx (data result_smc) 0) in
    let tmp :=
      match unit with
      | CELSIUS => tmp
      | FAHRENHEIT => to_fahrenheit tmp
      | KELVIN => to_kelvin tmp
      end in
    mret tmp.

(** ** Fan functions *)

Definition get_num_fans : M Z :=
  '(result, result_smc) ← read_smc "FNum";
  if negb ((result =? kIOReturnSuccess)
           && (dataSize result_smc =? 1)
           && (strcmp (dataType result_smc)
                 (list_ascii_of_string DATA_TYPE_UINT8) =? 0))
  then mret (-1)
  else mret (idx (data result_smc) 0).

Definition get_fan_rpm (fan_num : Z) : M Z :=
  (* FIXME: Use fan_num for key *)
  '(result, result_smc) ← read_smc "F0Ac";
  if negb ((result =? kIOReturnSuccess)
           && (dataSize result_smc =? 2)
           && (strcmp (dataType result_smc)
                 (list_ascii_of_string DATA_TYPE_FPE2) =? 0))
  then mret 0
  else mret (from_fpe2 (data result_smc)).

Definition set_fan_min_rpm (fan_num rpm : Z) (auth : bool) : M bool :=
  let ans := false in
  let result_smc := smc_return_zero in
  let result_smc := set_dataSize 2 result_smc in
  let result_smc := set_data (to_fpe2 rpm (data result_smc)) result_smc in
  (* FIXME: Use fan_num for key *)
  '(result, result_smc) ← write_smc "F0Mn" result_smc;
  let ans :=
    if (result =? kIOReturnSuccess) && (kSMC result_smc =? kSMCSuccess)
    then true else ans in
  mret ans.

(** ** Vocabulary for the statements *)

(** The request of the metadata phase, and those of the data phase. *)
Definition key_info_request (key : string) : SMCParamStruct.t :=
  SMCParamStruct.set_data8 kSMCGetKeyInfo
    (SMCParamStruct.set_key (to_uint32_t key) SMCParamStruct.zero).

Definition read_key_request (key : string) (size : Z) : SMCParamStruct.t :=
  SMCParamStruct.set_data8 kSMCReadKey
    (SMCParamStruct.set_keyInfo_dataSize size (key_info_request key)).

Definition write_key_request (key : string) (size : Z) : SMCParamStruct.t :=
  SMCParamStruct.set_keyInfo_dataSize size
    (SMCParamStruct.set_data8 kSMCWriteKey (key_info_request key)).

(** The record a read returns when its data phase was reached: the
    metadata of the first answer, the status of the second, and the
    payload given. *)
Definition read_record (o1 o2 : SMCParamStruct.t) (payload : list Z)
  : smc_return_t :=
  {| data := payload;
     dataType :=
       to_string (keyInfo.dataType (SMCParamStruct.keyInfo o1))
         (replicate 5 Ascii.zero);
     dataSize := keyInfo.dataSize (SMCParamStruct.keyInfo o1);
     kSMC := SMCParamStruct.result o2 |}.

(** The line [is_key_valid] prints for a key of the wrong size. *)
Definition key_size_error : string :=
  ("ERROR: Invalid key size - must be 4 chars" ++ newline)%string.

End Smc.

(** ** A concrete platform: Apple's constants and scripted drivers *)

(** The values Apple's SMC driver uses for the enumerators and tags. *)
Definition apple_smc_h : smc_h :=
  {| kSMCSuccess := 0; kSMCHandleYPCEvent := 2;
     kSMCReadKey := 5; kSMCWriteKey := 6; kSMCGetKeyInfo := 9;
     DATA_TYPE_UINT8 := "ui8 "; DATA_TYPE_FPE2 := "fpe2";
     DATA_TYPE_SP78 := "sp78" |}.

(** A driver that plays a script: each call answers with the next return
    code and output structure, and with [kIOReturnError] and an untouched
    output buffer once the script is over. *)
Definition scripted : AppleSMC :=
  {| kext := list (kern_return_t * SMCParamStruct.t);
     IOConnectCallStructMethod := fun _ _ outputStruct k =>
       match k with
       | [] => (kIOReturnError, outputStruct, [])
       | (r, o) :: k' => (r, o, k')
       end |}.

Definition script (k : list (kern_return_t * SMCParamStruct.t)) : @world scripted :=
  {| driver := k : @kext scripted; calls := []; stdout := [] |}.

(** An answer of the controller: status, size, type tag, payload. *)
Definition answer (status size type : Z) (payload : list Z) : SMCParamStruct.t :=
  {| SMCParamStruct.key := 0;
     SMCParamStruct.keyInfo := keyInfo.mk size type;
     SMCParamStruct.result := status;
     SMCParamStruct.data8 := 0;
     SMCParamStruct.bytes := payload ++ replicate (32 - length payload) 0 |}.

Section ScriptedWorlds.
#[local] Existing Instance apple_smc_h.
#[local] Existing Instance scripted.

(** The tags "sp78" and "fpe2" as the controller reports them. *)
Definition tag_sp78 : Z := 0x73703738.
Definition tag_fpe2 : Z := 0x66706532.

(** The world of a script with the answers [k] left to play after the
    requests [reqs], and the world once the script is played to the end. *)
Definition playing (k : list (kern_return_t * SMCParamStruct.t))
    (reqs : list SMCParamStruct.t) : world :=
  {| driver := k : @kext scripted; calls := reqs; stdout := [] |}.

Definition played (reqs : list SMCParamStruct.t) : world := playing [] reqs.

(** The controller does not know the key: the metadata answer carries the
    status 0x84 (key not found). *)
Definition key_unknown : world := script [(0, answer 0x84 0 0 [])].

(** The channel fails on the metadata call. *)
Definition channel_down : world := script [(kIOReturnError, SMCParamStruct.zero)].

(** A temperature sensor of 50 degrees. *)
Definition sensor_50 : world :=
  script [(0, answer 0 2 tag_sp78 []); (0, answer 0 2 tag_sp78 [50; 0])].

(** A temperature sensor whose metadata is read and whose data phase the
    controller then refuses with the status 1, on a working channel. *)
Definition sensor_refused : world :=
  script [(0, answer 0 2 tag_sp78 []); (0, answer 1 0 0 [])].

(** The same with the channel failing in the data phase. *)
Definition sensor_cut : world :=
  script [(0, answer 0 2 tag_sp78 []); (kIOReturnError, SMCParamStruct.zero)].

(** A fan whose speed bytes are 0x10, 0x00. *)
Definition fan_1024 : world :=
  script [(0, answer 0 2 tag_fpe2 []); (0, answer 0 2 tag_fpe2 [0x10; 0x00])].

(** A record of 4 bytes for a key the controller gives 2 bytes. *)
Definition four_bytes : smc_return_t := set_dataSize 4 smc_return_zero.

(** The tag "ui8 " as the controller reports it. *)
Definition tag_ui8 : Z := 0x75693820.

(** A machine with two fans, and one whose fan count the controller
    refuses to give in the data phase, on a working channel. *)
Definition fans_2 : world :=
  script [(0, answer 0 1 tag_ui8 []); (0, answer 0 1 tag_ui8 [2])].

Definition fans_refused : world :=
  script [(0, answer 0 1 tag_ui8 []); (0, answer 1 0 0 [])].

(** The fan-speed limit key, two bytes wide, with a write that succeeds. *)
Definition fan_limit : world :=
  script [(0, answer 0 2 tag_fpe2 []); (0, answer 0 0 0 [])].

End ScriptedWorlds.

(** * Properties *)

(** ** Properties of the codecs *)

Example to_uint32_t_F0Ac : to_uint32_t "F0Ac" = 0x46304163.
Proof. reflexivity. Qed.

Example to_string_fpe2 :
  to_string 0x66706532 (replicate 5 Ascii.zero)
  = list_ascii_of_string "fpe2" ++ [Ascii.zero].
Proof. reflexivity. Qed.

Example from_fpe2_to_fpe2_4 : from_fpe2 (to_fpe2 4 [0; 0]) = 64.
Proof. reflexivity. Qed.



Lemma wrap8_land x : wrap8 x = Z.land x (Z.ones 8).
Proof. unfold wrap8. now rewrite Z.land_ones by lia. Qed.

(** XOR with a value shifted left by 8 leaves the low 8 bits alone. *)
Lemma wrap8_lxor_shiftl8 a d : wrap8 (Z.lxor a (Z.shiftl d 8)) = wrap8 a.
Proof.
  rewrite !wrap8_land. apply Z.bits_inj'. intros n Hn.
  rewrite !Z.land_spec, Z.lxor_spec.
  destruct (Z.ltb_spec n 8) as [Hlt | Hge].
  - rewrite Z.shiftl_spec_low by lia. now rewrite xorb_false_r.
  - rewrite Z.ones_spec_high by lia. now rewrite !andb_false_r.
Qed.

Lemma idx_insert_eq (a : list Z) (i : nat) (x : Z) :
  (i < length a)%nat -> idx (<[i := x]> a) i = x.
Proof. intros Hi. unfold idx. now rewrite list_lookup_insert_eq. Qed.

Lemma idx_insert_ne (a : list Z) (i j : nat) (x : Z) :
  i <> j -> idx (<[i := x]> a) j = idx a j.
Proof. intros Hij. unfold idx. now rewrite list_lookup_insert_ne. Qed.

(** The two bytes [to_fpe2] stores. *)
Lemma to_fpe2_bytes val data :
  (2 <= length data)%nat ->
  idx (to_fpe2 val data) 0 = wrap8 (Z.shiftr val 6) /\
  idx (to_fpe2 val data) 1 = wrap8 (wrap32 (Z.shiftl val 2)).
Proof.
  intros Hlen. unfold to_fpe2. split.
  - rewrite idx_insert_ne by lia. apply idx_insert_eq. lia.
  - rewrite idx_insert_eq by (rewrite length_insert; lia).
    apply wrap8_lxor_shiftl8.
Qed.

(** What decoding an encoded value gives, for a 14-bit value. *)
Lemma from_fpe2_to_fpe2 v data :
  0 <= v <= 16383 -> (2 <= length data)%nat ->
  from_fpe2 (to_fpe2 v data) = v + 15 * (v mod 64).
Proof.
  intros Hv Hlen. unfold from_fpe2.
  destruct (to_fpe2_bytes v data Hlen) as [-> ->].
  unfold wrap8, wrap32.
  rewrite !Z.shiftl_mul_pow2, Z.shiftr_div_pow2 by lia.
  change (2 ^ 6) with 64. change (2 ^ 2) with 4.
  change (2 ^ 8) with 256. change (2 ^ 32) with 4294967296.
  Z.div_mod_to_equations. lia.
Qed.

(** C1 (as amended): for every [v] in [0, 16383], [to_fpe2] loses no bit
    of [v] (its two bytes are the big-endian bytes of [4 * v]), and
    [from_fpe2] applied to those bytes gives back [v] when [v] is a
    multiple of 64. *)
Theorem fpe2_round_trip v data :
  0 <= v <= 16383 -> (2 <= length data)%nat ->
  let bytes := to_fpe2 v data in
  (0 <= idx bytes 0 < 256 /\ 0 <= idx bytes 1 < 256) /\
  idx bytes 0 * 256 + idx bytes 1 = 4 * v /\
  (v mod 64 = 0 -> from_fpe2 bytes = v).
Proof.
  intros Hv Hlen bytes. subst bytes. repeat split.
  1-5: destruct (to_fpe2_bytes v data Hlen) as [E0 E1];
       rewrite ?E0, ?E1; unfold wrap8, wrap32;
       rewrite ?Z.shiftl_mul_pow2, ?Z.shiftr_div_pow2 by lia;
       change (2 ^ 6) with 64; change (2 ^ 2) with 4;
       change (2 ^ 8) with 256; change (2 ^ 32) with 4294967296;
       Z.div_mod_to_equations; lia.
  intros Hm. rewrite from_fpe2_to_fpe2 by assumption. lia.
Qed.

Lemma fpe2_round_trip_witness :
  let bytes := to_fpe2 128 (replicate 32 0) in
  (0 <= idx bytes 0 < 256 /\ 0 <= idx bytes 1 < 256) /\
  idx bytes 0 * 256 + idx bytes 1 = 4 * 128 /\
  (128 mod 64 = 0 -> from_fpe2 bytes = 128).
Proof.
  apply (fpe2_round_trip 128 (replicate 32 0)); [lia | simpl; lia].
Defined.

(** C1 as stated fails: 4 is a multiple of 4 in range and decodes to 64,
    and 1 is not and decodes to 16, not to [1 - 1 mod 4 = 0]. *)
Lemma fpe2_round_trip_multiple_of_4_fails :
  (0 <= 4 <= 16383 /\ 4 mod 4 = 0 /\
   from_fpe2 (to_fpe2 4 (replicate 32 0)) = 64 /\ 64 <> 4) /\
  (0 <= 1 <= 16383 /\ 1 mod 4 <> 0 /\
   from_fpe2 (to_fpe2 1 (replicate 32 0)) = 16 /\ 16 <> 1 - 1 mod 4).
Proof. repeat split; try reflexivity; try lia; discriminate. Qed.

(** C8: the XOR term of [to_fpe2] changes nothing: for every [val] the
    byte stored in [data[1]] is [val << 2] cut to 8 bits, whatever
    [data[0]] holds, and [to_fpe2] stores the same bytes as the encoder
    with [data[1] = val << 2]. *)
Theorem to_fpe2_xor_no_op val data :
  wrap8 (Z.lxor (wrap32 (Z.shiftl val 2))
                (Z.shiftl (idx (<[0%nat := wrap8 (Z.shiftr val 6)]> data) 0) 8))
  = wrap8 (wrap32 (Z.shiftl val 2)) /\
  to_fpe2 val data = to_fpe2_simplified val data.
Proof.
  unfold to_fpe2, to_fpe2_simplified.
  now rewrite wrap8_lxor_shiftl8.
Qed.

(** ** Properties of the key codec *)

Lemma printable_not_nul c : printable c -> is_nul c = false.
Proof.
  unfold printable, is_nul. intros Hc.
  destruct (Ascii.eqb_spec c Ascii.zero) as [-> | ]; [ | reflexivity].
  cbv in Hc. destruct Hc as [Hc _]. now contradiction Hc.
Qed.

Lemma printable_char_val c : printable c -> char_val c = uchar_val c.
Proof.
  unfold printable, char_val, uchar_val. intros Hc.
  destruct (Z.ltb_spec (Z.of_N (N_of_ascii c)) 128); lia.
Qed.

Lemma to_char_uchar_val c : to_char (uchar_val c) = c.
Proof.
  unfold to_char, uchar_val, wrap8.
  pose proof (N_ascii_bounded c) as Hb.
  rewrite Z.mod_small by lia.
  now rewrite N2Z.id, ascii_N_embedding.
Qed.

(** [to_uint32_t] on four characters below 128 packs them big-endian. *)
Lemma to_uint32_t_pack c0 c1 c2 c3 :
  Forall printable [c0; c1; c2; c3] ->
  to_uint32_t (String c0 (String c1 (String c2 (String c3 EmptyString))))
  = uchar_val c0 * 2 ^ 24 + uchar_val c1 * 2 ^ 16 + uchar_val c2 * 2 ^ 8
    + uchar_val c3.
Proof.
  intros Hp.
  apply Forall_cons in Hp as [H0 Hp]. apply Forall_cons in Hp as [H1 Hp].
  apply Forall_cons in Hp as [H2 Hp]. apply Forall_cons in Hp as [H3 _].
  unfold to_uint32_t. cbn [strlen].
  rewrite !printable_not_nul by assumption.
  cbn [Nat.eqb SMC_KEY_SIZE negb seq fold_left to_uint32_t_step char_at fst].
  rewrite !printable_char_val by assumption.
  unfold printable in *. unfold wrap32.
  change (2 ^ 32) with 4294967296.
  change ((24 - 8) mod 4294967296) with 16.
  change ((16 - 8) mod 4294967296) with 8.
  change ((8 - 8) mod 4294967296) with 0.
  rewrite !Z.shiftl_mul_pow2 by lia.
  change (2 ^ 24) with 16777216. change (2 ^ 16) with 65536.
  change (2 ^ 8) with 256. change (2 ^ 0) with 1.
  Z.div_mod_to_equations. lia.
Qed.

(** [to_string] writes the four bytes of [val], most significant first,
    over the first four characters of the buffer. *)
Lemma to_string_unpack n0 n1 n2 n3 (buf : list ascii) :
  0 <= n0 < 256 -> 0 <= n1 < 256 -> 0 <= n2 < 256 -> 0 <= n3 < 256 ->
  (4 <= length buf)%nat ->
  to_string (n0 * 2 ^ 24 + n1 * 2 ^ 16 + n2 * 2 ^ 8 + n3) buf
  = [to_char n0; to_char n1; to_char n2; to_char n3] ++ drop 4 buf.
Proof.
  intros B0 B1 B2 B3 Hlen.
  destruct buf as [ | b0 [ | b1 [ | b2 [ | b3 rest]]]];
    cbn [length] in Hlen; try lia.
  unfold to_string.
  cbn [DATA_TYPE_SIZE seq fold_left to_string_step fst].
  change (24 - 8) with 16. change (16 - 8) with 8. change (8 - 8) with 0.
  cbn [list_insert insert drop app].
  change 255 with (Z.ones 8). rewrite !Z.land_ones by lia.
  rewrite !Z.shiftr_div_pow2 by lia.
  change (2 ^ 24) with 16777216. change (2 ^ 16) with 65536.
  change (2 ^ 8) with 256. change (2 ^ 0) with 1.
  repeat f_equal; Z.div_mod_to_equations; lia.
Qed.

(** C7: for every key of four printable ASCII characters, [to_uint32_t]
    packs the characters big-endian, character 0 in the most significant
    byte, and [to_string] on the result writes the four characters of the
    key back (over the first four places of the buffer it is given). *)
Theorem key_round_trip (key : string) (buf : list ascii) :
  String.length key = 4%nat ->
  Forall printable (list_ascii_of_string key) ->
  (4 <= length buf)%nat ->
  to_uint32_t key
  = uchar_val (char_at key 0) * 2 ^ 24 + uchar_val (char_at key 1) * 2 ^ 16
    + uchar_val (char_at key 2) * 2 ^ 8 + uchar_val (char_at key 3) /\
  to_string (to_uint32_t key) buf = list_ascii_of_string key ++ drop 4 buf.
Proof.
  intros Hlen Hp Hbuf.
  destruct key as [ | c0 [ | c1 [ | c2 [ | c3 [ | c4 key]]]]];
    try discriminate Hlen.
  cbn [list_ascii_of_string] in Hp. cbn [char_at list_ascii_of_string].
  rewrite (to_uint32_t_pack _ _ _ _ Hp). split; [reflexivity | ].
  apply Forall_cons in Hp as [H0 Hp]. apply Forall_cons in Hp as [H1 Hp].
  apply Forall_cons in Hp as [H2 Hp]. apply Forall_cons in Hp as [H3 _].
  unfold printable in *.
  rewrite to_string_unpack by (assumption || lia).
  now rewrite !to_char_uchar_val.
Qed.

Lemma key_round_trip_witness :
  to_uint32_t "F0Ac" = 70 * 2 ^ 24 + 48 * 2 ^ 16 + 65 * 2 ^ 8 + 99 /\
  to_string (to_uint32_t "F0Ac") (replicate 5 Ascii.zero)
  = list_ascii_of_string "F0Ac" ++ [Ascii.zero].
Proof.
  apply (key_round_trip "F0Ac" (replicate 5 Ascii.zero)).
  - reflexivity.
  - repeat constructor; unfold printable; cbv; discriminate.
  - simpl. lia.
Defined.

(** ** The two-phase transactions *)

Section Transactions.
Context `{smc_h} `{AppleSMC}.

Lemma failed_false r o :
  failed r o = false <->
  r = kIOReturnSuccess /\ SMCParamStruct.result o = kSMCSuccess.
Proof.
  unfold failed. rewrite orb_false_iff, !negb_false_iff, !Z.eqb_eq. tauto.
Qed.

Lemma failed_true r o :
  failed r o = true <->
  r <> kIOReturnSuccess \/ SMCParamStruct.result o <> kSMCSuccess.
Proof.
  unfold failed. rewrite orb_true_iff, !negb_true_iff, !Z.eqb_neq. tauto.
Qed.

(** A call appends its input structure to the calls made and prints
    nothing. *)
Lemma call_smc_world i o w x w' :
  call_smc i o w = (x, w') ->
  calls w' = calls w ++ [i] /\ stdout w' = stdout w.
Proof.
  unfold call_smc.
  destruct (IOConnectCallStructMethod _ _ _ _) as [[r o'] k].
  intros [= _ <-]. now split.
Qed.

(** [read_smc] phase by phase. *)
Lemma read_smc_phases key w :
  read_smc key w =
  let '((r1, o1), w1) :=
    call_smc (key_info_request key) SMCParamStruct.zero w in
  if failed r1 o1
  then ((r1, set_kSMC (SMCParamStruct.result o1) smc_return_zero), w1)
  else
    let '((r2, o2), w2) :=
      call_smc
        (read_key_request key (keyInfo.dataSize (SMCParamStruct.keyInfo o1)))
        o1 w1 in
    if failed r2 o2
    then ((r2, read_record o1 o2 (replicate 32 0)), w2)
    else ((r2, read_record o1 o2 (SMCParamStruct.bytes o2)), w2).
Proof.
  unfold read_smc, mbind, M_bind, bind, mret, M_ret, ret.
  fold (key_info_request key).
  destruct (call_smc (key_info_request key) _ w) as [[r1 o1] w1].
  destruct (failed r1 o1); [reflexivity | ].
  fold (read_key_request key (keyInfo.dataSize (SMCParamStruct.keyInfo o1))).
  destruct (call_smc (read_key_request _ _) o1 w1) as [[r2 o2] w2].
  destruct (failed r2 o2); reflexivity.
Qed.

(** [write_smc] phase by phase. *)
Lemma write_smc_phases key result_smc w :
  write_smc key result_smc w =
  let '((r1, o1), w1) :=
    call_smc (key_info_request key) SMCParamStruct.zero w in
  if failed r1 o1
  then ((r1, set_kSMC (SMCParamStruct.result o1) result_smc), w1)
  else if negb (dataSize result_smc
                =? keyInfo.dataSize (SMCParamStruct.keyInfo o1))
  then ((kIOReturnBadArgument,
         set_kSMC (SMCParamStruct.result o1) result_smc), w1)
  else
    let '((r2, o2), w2) :=
      call_smc
        (write_key_request key (keyInfo.dataSize (SMCParamStruct.keyInfo o1)))
        (SMCParamStruct.set_bytes (data result_smc) o1) w1 in
    ((r2, set_kSMC (SMCParamStruct.result o2) result_smc), w2).
Proof.
  unfold write_smc, mbind, M_bind, bind, mret, M_ret, ret.
  fold (key_info_request key).
  destruct (call_smc (key_info_request key) _ w) as [[r1 o1] w1].
  destruct (failed r1 o1); [reflexivity | ].
  cbn [dataSize set_kSMC data].
  destruct (negb _); [reflexivity | ].
  fold (write_key_request key (keyInfo.dataSize (SMCParamStruct.keyInfo o1))).
  destruct (call_smc (write_key_request _ _) _ w1) as [[r2 o2] w2].
  reflexivity.
Qed.

(** C2: in a read and in a write transaction, when the metadata phase
    fails (the channel status [call_smc] returns is not success, or the
    status field of the answer is not success), the transaction returns
    after that call: the world it leaves is the one the metadata call
    left, in which exactly one request, the get-key-info one, was added
    to the calls made. *)
Theorem metadata_failure_stops_transaction key result_smc w r out w1 :
  call_smc (key_info_request key) SMCParamStruct.zero w = ((r, out), w1) ->
  r <> kIOReturnSuccess \/ SMCParamStruct.result out <> kSMCSuccess ->
  read_smc key w
  = ((r, set_kSMC (SMCParamStruct.result out) smc_return_zero), w1) /\
  write_smc key result_smc w
  = ((r, set_kSMC (SMCParamStruct.result out) result_smc), w1) /\
  calls w1 = calls w ++ [key_info_request key].
Proof.
  intros Hcall Hfail. apply failed_true in Hfail.
  rewrite read_smc_phases, write_smc_phases, Hcall, Hfail.
  repeat split. now apply call_smc_world in Hcall.
Qed.

(** C3: in a write transaction whose metadata phase succeeds, when the
    size the caller supplied differs from the size the controller
    reported, [write_smc] returns [kIOReturnBadArgument] and leaves the
    world of the metadata call: one request in all, no payload call. *)
Theorem write_size_mismatch key result_smc w out w1 :
  call_smc (key_info_request key) SMCParamStruct.zero w
  = ((kIOReturnSuccess, out), w1) ->
  SMCParamStruct.result out = kSMCSuccess ->
  dataSize result_smc <> keyInfo.dataSize (SMCParamStruct.keyInfo out) ->
  write_smc key result_smc w
  = ((kIOReturnBadArgument,
      set_kSMC (SMCParamStruct.result out) result_smc), w1) /\
  calls w1 = calls w ++ [key_info_request key].
Proof.
  intros Hcall Hok Hsize.
  assert (Hf : failed kIOReturnSuccess out = false) by now apply failed_false.
  apply Z.eqb_neq in Hsize.
  rewrite write_smc_phases, Hcall, Hf, Hsize.
  split; [reflexivity | now apply call_smc_world in Hcall].
Qed.

End Transactions.

(** ** The sensor functions *)

Section SensorAPI.
Context `{smc_h} `{AppleSMC}.

(** Every request of a read carries the encoded key of the read; there
    are one or two of them and nothing is printed. *)
Lemma read_smc_requests key w :
  exists reqs,
    calls (read_smc key w).2 = calls w ++ reqs /\
    stdout (read_smc key w).2 = stdout w /\
    (1 <= length reqs <= 2)%nat /\
    Forall (fun q => SMCParamStruct.key q = to_uint32_t key) reqs.
Proof.
  rewrite read_smc_phases.
  destruct (call_smc (key_info_request key) _ w) as [[r1 o1] w1] eqn:E1.
  apply call_smc_world in E1 as [C1 S1].
  destruct (failed r1 o1).
  - exists [key_info_request key]. cbn [snd length].
    repeat split; auto; repeat constructor.
  - destruct (call_smc (read_key_request _ _) o1 w1) as [[r2 o2] w2] eqn:E2.
    apply call_smc_world in E2 as [C2 S2].
    exists [key_info_request key;
            read_key_request key
              (keyInfo.dataSize (SMCParamStruct.keyInfo o1))].
    assert (calls w2 = calls w ++
              [key_info_request key;
               read_key_request key
                 (keyInfo.dataSize (SMCParamStruct.keyInfo o1))])
      by (rewrite C2, C1, <- app_assoc; reflexivity).
    assert (stdout w2 = stdout w) by congruence.
    destruct (failed r2 o2); cbn [snd length];
      repeat split; auto; repeat constructor.
Qed.

(** The same for a write. *)
Lemma write_smc_requests key result_smc w :
  exists reqs,
    calls (write_smc key result_smc w).2 = calls w ++ reqs /\
    (1 <= length reqs <= 2)%nat /\
    Forall (fun q => SMCParamStruct.key q = to_uint32_t key) reqs.
Proof.
  rewrite write_smc_phases.
  destruct (call_smc (key_info_request key) _ w) as [[r1 o1] w1] eqn:E1.
  apply call_smc_world in E1 as [C1 S1].
  assert (Hone : exists reqs, calls w1 = calls w ++ reqs /\
            (1 <= length reqs <= 2)%nat /\
            Forall (fun q => SMCParamStruct.key q = to_uint32_t key) reqs).
  { exists [key_info_request key]. cbn [length].
    repeat split; auto; repeat constructor. }
  destruct (failed r1 o1); [exact Hone | ].
  destruct (negb _); [exact Hone | ].
  destruct (call_smc (write_key_request _ _) _ w1) as [[r2 o2] w2] eqn:E2.
  apply call_smc_world in E2 as [C2 S2].
  exists [key_info_request key;
          write_key_request key (keyInfo.dataSize (SMCParamStruct.keyInfo o1))].
  assert (calls w2 = calls w ++
            [key_info_request key;
             write_key_request key
               (keyInfo.dataSize (SMCParamStruct.keyInfo o1))])
    by (rewrite C2, C1, <- app_assoc; reflexivity).
  cbn [snd length]. repeat split; auto; repeat constructor.
Qed.

(** A read that reports a failure, on the channel or in the status it
    stores, leaves the payload of its record zeroed. *)
Lemma read_smc_failed_data key w r rs w' :
  read_smc key w = ((r, rs), w') ->
  r <> kIOReturnSuccess \/ kSMC rs <> kSMCSuccess ->
  data rs = replicate 32 0.
Proof.
  rewrite read_smc_phases.
  destruct (call_smc (key_info_request key) _ w) as [[r1 o1] w1].
  destruct (failed r1 o1).
  - now intros [= <- <- <-].
  - destruct (call_smc (read_key_request _ _) o1 w1) as [[r2 o2] w2].
    destruct (failed r2 o2) eqn:Hf.
    + now intros [= <- <- <-].
    + intros [= <- <- <-] Hfail. apply failed_false in Hf.
      cbn [kSMC read_record] in Hfail. tauto.
Qed.

(** C4: the fan number plays no part: [get_fan_rpm] gives the same result
    and world for any two fan numbers, and so does [set_fan_min_rpm];
    every request of [get_fan_rpm] carries the encoding of the literal
    key F0Ac and every request of [set_fan_min_rpm] that of F0Mn. *)
Theorem fan_num_ignored (i j rpm : Z) (auth : bool) w :
  get_fan_rpm i w = get_fan_rpm j w /\
  set_fan_min_rpm i rpm auth w = set_fan_min_rpm j rpm auth w /\
  (exists reqs,
     calls (get_fan_rpm i w).2 = calls w ++ reqs /\ (1 <= length reqs)%nat /\
     Forall (fun q => SMCParamStruct.key q = to_uint32_t "F0Ac") reqs) /\
  (exists reqs,
     calls (set_fan_min_rpm i rpm auth w).2 = calls w ++ reqs /\
     (1 <= length reqs)%nat /\
     Forall (fun q => SMCParamStruct.key q = to_uint32_t "F0Mn") reqs).
Proof.
  split; [reflexivity | ]. split; [reflexivity | ]. split.
  - destruct (read_smc_requests "F0Ac" w) as (reqs & Hc & _ & Hn & Hk).
    exists reqs. split; [ | split; [lia | exact Hk]].
    rewrite <- Hc. unfold get_fan_rpm, mbind, M_bind, bind, mret, M_ret, ret.
    destruct (read_smc "F0Ac" w) as [[r rs] w'].
    cbn [snd]. now destruct (negb _).
  - set (rs0 := set_data (to_fpe2 rpm (data (set_dataSize 2 smc_return_zero)))
                  (set_dataSize 2 smc_return_zero)).
    destruct (write_smc_requests "F0Mn" rs0 w) as (reqs & Hc & Hn & Hk).
    exists reqs. split; [ | split; [lia | exact Hk]].
    rewrite <- Hc. unfold set_fan_min_rpm, mbind, M_bind, bind, mret, M_ret, ret.
    fold rs0. now destruct (write_smc "F0Mn" rs0 w) as [[r rs] w'].
Qed.

(** A read whose two phases succeed returns the metadata of the first
    answer and the payload of the second. *)
Lemma read_smc_success key w o1 w1 o2 w2 :
  call_smc (key_info_request key) SMCParamStruct.zero w
  = ((kIOReturnSuccess, o1), w1) ->
  SMCParamStruct.result o1 = kSMCSuccess ->
  call_smc (read_key_request key (keyInfo.dataSize (SMCParamStruct.keyInfo o1)))
    o1 w1 = ((kIOReturnSuccess, o2), w2) ->
  SMCParamStruct.result o2 = kSMCSuccess ->
  read_smc key w
  = ((kIOReturnSuccess, read_record o1 o2 (SMCParamStruct.bytes o2)), w2).
Proof.
  intros E1 S1 E2 S2.
  assert (F1 : failed kIOReturnSuccess o1 = false) by now apply failed_false.
  assert (F2 : failed kIOReturnSuccess o2 = false) by now apply failed_false.
  now rewrite read_smc_phases, E1, F1, E2, F2.
Qed.

(** A read reports success on both layers exactly when both of its
    phases did. *)
Lemma read_smc_success_iff key w r rs w' :
  read_smc key w = ((r, rs), w') ->
  (r = kIOReturnSuccess /\ kSMC rs = kSMCSuccess) <->
  (exists o1 w1 o2,
     call_smc (key_info_request key) SMCParamStruct.zero w
     = ((kIOReturnSuccess, o1), w1) /\
     SMCParamStruct.result o1 = kSMCSuccess /\
     call_smc
       (read_key_request key (keyInfo.dataSize (SMCParamStruct.keyInfo o1)))
       o1 w1 = ((kIOReturnSuccess, o2), w') /\
     SMCParamStruct.result o2 = kSMCSuccess).
Proof.
  intros Hread. split.
  - revert Hread. rewrite read_smc_phases.
    destruct (call_smc (key_info_request key) _ w) as [[r1 o1] w1].
    destruct (failed r1 o1) eqn:F1.
    + intros [= <- <- <-] [Hr Hk]. apply failed_true in F1.
      cbn [kSMC set_kSMC] in Hk. tauto.
    + apply failed_false in F1 as [-> S1].
      destruct (call_smc (read_key_request _ _) o1 w1) as [[r2 o2] w2] eqn:E2.
      destruct (failed r2 o2) eqn:F2.
      * intros [= <- <- <-] [Hr Hk]. apply failed_true in F2.
        cbn [kSMC read_record] in Hk. tauto.
      * apply failed_false in F2 as [-> S2].
        intros [= <- <- <-] _. exists o1, w1, o2. auto.
  - intros (o1 & w1 & o2 & E1 & S1 & E2 & S2).
    rewrite (read_smc_success _ _ _ _ _ _ E1 S1 E2 S2) in Hread.
    revert Hread. intros [= <- <-]. now split.
Qed.

(** C6: [is_key_valid] answers true exactly when the read transaction
    reports success both on the channel and in the protocol status; for a
    key of four characters that the controller does not know it answers
    false and prints nothing; for a key whose length is not 4 it prints
    the key-size error line, answers false and makes no call. *)
Theorem is_key_valid_spec key w :
  (strlen key <> 4%nat ->
   is_key_valid key w
   = (false, {| driver := driver w; calls := calls w;
                stdout := stdout w ++ [key_size_error] |})) /\
  (strlen key = 4%nat ->
   forall r rs w', read_smc key w = ((r, rs), w') ->
     (is_key_valid key w).2 = w' /\ stdout w' = stdout w /\
     ((is_key_valid key w).1 = true <->
      r = kIOReturnSuccess /\ kSMC rs = kSMCSuccess)) /\
  (strlen key = 4%nat ->
   forall out w1,
     call_smc (key_info_request key) SMCParamStruct.zero w
     = ((kIOReturnSuccess, out), w1) ->
     SMCParamStruct.result out <> kSMCSuccess ->
     is_key_valid key w = (false, w1) /\ stdout w1 = stdout w).
Proof.
  unfold is_key_valid, SMC_KEY_SIZE. split; [ | split].
  - intros Hlen. apply Nat.eqb_neq in Hlen. now rewrite Hlen.
  - intros Hlen r rs w' Hread. rewrite Hlen, Nat.eqb_refl. cbn [negb].
    unfold mbind, M_bind, bind, mret, M_ret, ret. rewrite Hread. cbn [fst snd].
    split; [reflexivity | ]. split.
    + pose proof (read_smc_requests key w) as (reqs & _ & Hs & _).
      now rewrite Hread in Hs.
    + destruct (Z.eqb_spec r kIOReturnSuccess) as [Er | Er];
        destruct (Z.eqb_spec (kSMC rs) kSMCSuccess) as [Ek | Ek];
        cbn [andb]; split; try tauto; try discriminate.
  - intros Hlen out w1 Hcall Hstatus. rewrite Hlen, Nat.eqb_refl. cbn [negb].
    assert (Hf : failed kIOReturnSuccess out = true)
      by (apply failed_true; now right).
    unfold mbind, M_bind, bind, mret, M_ret, ret.
    rewrite read_smc_phases, Hcall, Hf. cbn [kSMC set_kSMC].
    apply Z.eqb_neq in Hstatus. rewrite Hstatus, andb_false_r.
    split; [reflexivity | now apply call_smc_world in Hcall].
Qed.

(** C9: when the read of the fan-speed key succeeds with size 2, the
    fpe2 tag and a payload that starts with the bytes 0x10, 0x00,
    [get_fan_rpm] returns 1024; when the read reports a failure on the
    channel or in the protocol status, or the size or the tag does not
    match, it returns 0. *)
Theorem get_fan_rpm_spec (fan_num : Z) w :
  (forall o1 w1 o2 w2 rest,
     call_smc (key_info_request "F0Ac") SMCParamStruct.zero w
     = ((kIOReturnSuccess, o1), w1) ->
     SMCParamStruct.result o1 = kSMCSuccess ->
     keyInfo.dataSize (SMCParamStruct.keyInfo o1) = 2 ->
     strcmp (to_string (keyInfo.dataType (SMCParamStruct.keyInfo o1))
               (replicate 5 Ascii.zero))
            (list_ascii_of_string DATA_TYPE_FPE2) = 0 ->
     call_smc (read_key_request "F0Ac" 2) o1 w1
     = ((kIOReturnSuccess, o2), w2) ->
     SMCParamStruct.result o2 = kSMCSuccess ->
     SMCParamStruct.bytes o2 = 0x10 :: 0x00 :: rest ->
     get_fan_rpm fan_num w = (1024, w2)) /\
  (forall r rs w',
     read_smc "F0Ac" w = ((r, rs), w') ->
     r <> kIOReturnSuccess \/ kSMC rs <> kSMCSuccess \/
     dataSize rs <> 2 \/
     strcmp (dataType rs) (list_ascii_of_string DATA_TYPE_FPE2) <> 0 ->
     get_fan_rpm fan_num w = (0, w')).
Proof.
  split.
  - intros o1 w1 o2 w2 rest E1 S1 Hsize Htag E2 S2 Hbytes.
    rewrite <- Hsize in E2.
    unfold get_fan_rpm, mbind, M_bind, bind, mret, M_ret, ret.
    rewrite (read_smc_success _ _ _ _ _ _ E1 S1 E2 S2).
    cbn [dataSize dataType data read_record].
    rewrite Hsize, Htag, Hbytes. reflexivity.
  - intros r rs w' Hread Hfail.
    unfold get_fan_rpm, mbind, M_bind, bind, mret, M_ret, ret.
    rewrite Hread.
    destruct (Z.eqb_spec r kIOReturnSuccess) as [Er | Er];
      [ | reflexivity].
    destruct (Z.eqb_spec (dataSize rs) 2) as [Es | Es]; [ | reflexivity].
    destruct (Z.eqb_spec (strcmp (dataType rs)
                (list_ascii_of_string DATA_TYPE_FPE2)) 0) as [Et | Et];
      [ | reflexivity].
    cbn [andb negb].
    rewrite (read_smc_failed_data _ _ _ _ _ Hread) by tauto.
    reflexivity.
Qed.

(** The successful path of [get_tmp]: with size 2, the sp78 tag and a
    payload whose first byte is 50, the result is 50 degrees Celsius,
    122 Fahrenheit, 323.15 Kelvin. *)
Lemma get_tmp_success key (unit : tmp_unit_t) w o1 w1 o2 w2 rest :
  call_smc (key_info_request key) SMCParamStruct.zero w
  = ((kIOReturnSuccess, o1), w1) ->
  SMCParamStruct.result o1 = kSMCSuccess ->
  keyInfo.dataSize (SMCParamStruct.keyInfo o1) = 2 ->
  strcmp (to_string (keyInfo.dataType (SMCParamStruct.keyInfo o1))
            (replicate 5 Ascii.zero))
         (list_ascii_of_string DATA_TYPE_SP78) = 0 ->
  call_smc (read_key_request key 2) o1 w1 = ((kIOReturnSuccess, o2), w2) ->
  SMCParamStruct.result o2 = kSMCSuccess ->
  SMCParamStruct.bytes o2 = 50 :: rest ->
  get_tmp key unit w
  = (match unit with
     | CELSIUS => 50%float
     | FAHRENHEIT => 122%float
     | KELVIN => 323.15%float
     end, w2).
Proof.
  intros E1 S1 Hsize Htag E2 S2 Hbytes.
  rewrite <- Hsize in E2.
  unfold get_tmp, mbind, M_bind, bind, mret, M_ret, ret.
  rewrite (read_smc_success _ _ _ _ _ _ E1 S1 E2 S2).
  cbn [dataSize dataType data read_record].
  rewrite Hsize, Htag, Hbytes.
  destruct unit; reflexivity.
Qed.

(** What [get_tmp] does with the record of a read, whatever made it. *)
Lemma get_tmp_rejects key (unit : tmp_unit_t) w r rs w' :
  read_smc key w = ((r, rs), w') ->
  r <> kIOReturnSuccess \/ dataSize rs <> 2 \/
  strcmp (dataType rs) (list_ascii_of_string DATA_TYPE_SP78) <> 0 ->
  get_tmp key unit w = (0%float, w').
Proof.
  intros Hread Hbad.
  unfold get_tmp, mbind, M_bind, bind, mret, M_ret, ret. rewrite Hread.
  destruct (Z.eqb_spec r kIOReturnSuccess) as [Er | Er]; [ | reflexivity].
  destruct (Z.eqb_spec (dataSize rs) 2) as [Es | Es]; [ | reflexivity].
  destruct (Z.eqb_spec (strcmp (dataType rs)
              (list_ascii_of_string DATA_TYPE_SP78)) 0) as [Et | Et];
    [ | reflexivity].
  tauto.
Qed.

(** C10 (as amended): [read_smc] starts from a zeroed record.  When the
    metadata phase fails, the record returned has size 0, an all-zero
    type tag and an all-zero payload, its [kSMC] is the status of that
    answer, and [get_tmp] returns 0.0 (the size is not 2).  When the
    metadata phase succeeds and the data phase fails, the payload is all
    zero but the size and the type tag are those of the metadata answer,
    [kSMC] is the status of the data answer, and [get_tmp] returns 0.0
    when the channel status is not success. *)
Theorem read_smc_failure_record key w r1 o1 w1 :
  call_smc (key_info_request key) SMCParamStruct.zero w = ((r1, o1), w1) ->
  (failed r1 o1 = true ->
   read_smc key w
   = ((r1, {| data := replicate 32 0; dataType := replicate 5 Ascii.zero;
              dataSize := 0; kSMC := SMCParamStruct.result o1 |}), w1) /\
   forall unit : tmp_unit_t, get_tmp key unit w = (0%float, w1)) /\
  (failed r1 o1 = false ->
   forall r2 o2 w2,
     call_smc
       (read_key_request key (keyInfo.dataSize (SMCParamStruct.keyInfo o1)))
       o1 w1 = ((r2, o2), w2) ->
     failed r2 o2 = true ->
     read_smc key w
     = ((r2, {| data := replicate 32 0;
                dataType :=
                  to_string (keyInfo.dataType (SMCParamStruct.keyInfo o1))
                    (replicate 5 Ascii.zero);
                dataSize := keyInfo.dataSize (SMCParamStruct.keyInfo o1);
                kSMC := SMCParamStruct.result o2 |}), w2) /\
     (r2 <> kIOReturnSuccess ->
      forall unit : tmp_unit_t, get_tmp key unit w = (0%float, w2))).
Proof.
  intros E1. split.
  - intros F1.
    assert (Hread : read_smc key w
              = ((r1, {| data := replicate 32 0;
                         dataType := replicate 5 Ascii.zero;
                         dataSize := 0;
                         kSMC := SMCParamStruct.result o1 |}), w1))
      by now rewrite read_smc_phases, E1, F1.
    split; [exact Hread | ].
    intros unit. apply (get_tmp_rejects _ _ _ _ _ _ Hread).
    right; left. cbn [dataSize]. lia.
  - intros F1 r2 o2 w2 E2 F2.
    assert (Hread : read_smc key w
              = ((r2, read_record o1 o2 (replicate 32 0)), w2))
      by now rewrite read_smc_phases, E1, F1, E2, F2.
    split; [exact Hread | ].
    intros Hr unit. apply (get_tmp_rejects _ _ _ _ _ _ Hread). now left.
Qed.

End SensorAPI.

(** ** The functions at work on scripted drivers *)

Section Scripts.
#[local] Existing Instance apple_smc_h.
#[local] Existing Instance scripted.

Example get_tmp_sensor_50 :
  (get_tmp "TC0D" CELSIUS sensor_50).1 = 50%float /\
  (get_tmp "TC0D" FAHRENHEIT sensor_50).1 = 122%float /\
  (get_tmp "TC0D" KELVIN sensor_50).1 = 323.15%float.
Proof. repeat split; reflexivity. Qed.

Example get_num_fans_key_unknown : (get_num_fans key_unknown).1 = -1.
Proof. reflexivity. Qed.

Example get_fan_rpm_channel_down :
  (read_smc "F0Ac" channel_down).1.1 = 0x2bc /\
  get_fan_rpm 0 channel_down = (0, played [key_info_request "F0Ac"]).
Proof. split; reflexivity. Qed.

Example set_fan_min_rpm_requests :
  map SMCParamStruct.key
    (calls (set_fan_min_rpm 1 2000 false
              (script [(0, answer 0 2 tag_fpe2 []); (0, answer 0 0 0 [])])).2)
  = [to_uint32_t "F0Mn"; to_uint32_t "F0Mn"].
Proof. reflexivity. Qed.

Lemma float_32_not_0 : 32%float <> 0%float.
Proof.
  intros E. apply (f_equal (fun x => PrimFloat.eqb x 0)) in E.
  vm_compute in E. discriminate E.
Qed.

(** C5: with the metadata read (size 2, tag sp78) and the data phase
    refused by the controller on a working channel, the read has failed
    (its protocol status is not success) and yet [get_tmp] does not
    return 0.0 for every unit: it returns 0.0 in Celsius, 32.0 in
    Fahrenheit and 273.15 in Kelvin, the conversions of a zeroed
    payload. *)
Theorem get_tmp_after_refused_data_phase :
  let r := (read_smc "TC0D" sensor_refused).1.1 in
  let rs := (read_smc "TC0D" sensor_refused).1.2 in
  (r = kIOReturnSuccess /\ kSMC rs <> kSMCSuccess /\ dataSize rs = 2 /\
   strcmp (dataType rs) (list_ascii_of_string DATA_TYPE_SP78) = 0) /\
  (get_tmp "TC0D" CELSIUS sensor_refused).1 = 0%float /\
  (get_tmp "TC0D" FAHRENHEIT sensor_refused).1 = 32%float /\
  (get_tmp "TC0D" KELVIN sensor_refused).1 = 273.15%float /\
  32%float <> 0%float.
Proof.
  repeat split; try reflexivity; try exact float_32_not_0.
  vm_compute. discriminate.
Qed.

(** C10 as stated fails: a read whose data phase fails returns a record
    whose size is 2 and whose type tag is "sp78", not zeros, and
    [get_tmp] in Fahrenheit does not reject that read. *)
Lemma read_smc_failed_data_phase_keeps_metadata :
  (let r := (read_smc "TC0D" sensor_refused).1.1 in
   let rs := (read_smc "TC0D" sensor_refused).1.2 in
   r = kIOReturnSuccess /\ kSMC rs <> kSMCSuccess /\
   dataSize rs = 2 /\ dataSize rs <> 0 /\
   dataType rs = list_ascii_of_string "sp78" ++ [Ascii.zero] /\
   dataType rs <> replicate 5 Ascii.zero) /\
  (let r := (read_smc "TC0D" sensor_cut).1.1 in
   let rs := (read_smc "TC0D" sensor_cut).1.2 in
   r <> kIOReturnSuccess /\ dataSize rs <> 0) /\
  ((get_tmp "TC0D" FAHRENHEIT sensor_refused).1 = 32%float /\
   32%float <> 0%float).
Proof.
  repeat split; try reflexivity; try exact float_32_not_0;
    vm_compute; discriminate.
Qed.

(** *** The theorems at concrete scripts *)

Lemma metadata_failure_stops_transaction_witness :
  read_smc "TC0D" key_unknown
  = ((0, set_kSMC 0x84 smc_return_zero), played [key_info_request "TC0D"]) /\
  write_smc "TC0D" four_bytes key_unknown
  = ((0, set_kSMC 0x84 four_bytes), played [key_info_request "TC0D"]) /\
  calls (played [key_info_request "TC0D"])
  = calls key_unknown ++ [key_info_request "TC0D"].
Proof.
  apply (metadata_failure_stops_transaction "TC0D" four_bytes key_unknown
           0 (answer 0x84 0 0 []) (played [key_info_request "TC0D"])).
  - reflexivity.
  - right. vm_compute. discriminate.
Defined.

Lemma write_size_mismatch_witness :
  write_smc "F0Mn" four_bytes (script [(0, answer 0 2 tag_fpe2 [])])
  = ((kIOReturnBadArgument, set_kSMC 0 four_bytes),
     played [key_info_request "F0Mn"]) /\
  calls (played [key_info_request "F0Mn"])
  = calls (script [(0, answer 0 2 tag_fpe2 [])]) ++ [key_info_request "F0Mn"].
Proof.
  apply (write_size_mismatch "F0Mn" four_bytes
           (script [(0, answer 0 2 tag_fpe2 [])])
           (answer 0 2 tag_fpe2 []) (played [key_info_request "F0Mn"])).
  - reflexivity.
  - reflexivity.
  - vm_compute. discriminate.
Defined.

Lemma is_key_valid_spec_witness :
  is_key_valid "TC0" key_unknown
  = (false, {| driver := driver key_unknown; calls := calls key_unknown;
               stdout := stdout key_unknown ++ [key_size_error] |}) /\
  (is_key_valid "TC0D" sensor_50).1 = true /\
  is_key_valid "ZZZZ" key_unknown = (false, played [key_info_request "ZZZZ"]).
Proof.
  split; [ | split].
  - apply (proj1 (is_key_valid_spec "TC0" key_unknown)). discriminate.
  - assert (Hread : read_smc "TC0D" sensor_50
                      = (((read_smc "TC0D" sensor_50).1.1,
                          (read_smc "TC0D" sensor_50).1.2),
                         (read_smc "TC0D" sensor_50).2))
      by (vm_compute; reflexivity).
    destruct (proj1 (proj2 (is_key_valid_spec "TC0D" sensor_50)) eq_refl
                _ _ _ Hread) as (_ & _ & Hiff).
    apply Hiff. split; reflexivity.
  - apply (proj2 (proj2 (is_key_valid_spec "ZZZZ" key_unknown)) eq_refl
             (answer 0x84 0 0 []) (played [key_info_request "ZZZZ"])).
    + reflexivity.
    + vm_compute. discriminate.
Defined.

Lemma get_fan_rpm_spec_witness :
  get_fan_rpm 3 fan_1024
  = (1024, played [key_info_request "F0Ac"; read_key_request "F0Ac" 2]) /\
  get_fan_rpm 3 key_unknown = (0, played [key_info_request "F0Ac"]).
Proof.
  split.
  - apply (proj1 (get_fan_rpm_spec 3 fan_1024)
             (answer 0 2 tag_fpe2 [])
             (playing [(0, answer 0 2 tag_fpe2 [0x10; 0x00])]
                [key_info_request "F0Ac"])
             (answer 0 2 tag_fpe2 [0x10; 0x00])
             (played [key_info_request "F0Ac"; read_key_request "F0Ac" 2])
             (replicate 30 0)); reflexivity.
  - apply (proj2 (get_fan_rpm_spec 3 key_unknown)
             0 (set_kSMC 0x84 smc_return_zero)
             (played [key_info_request "F0Ac"])).
    + reflexivity.
    + right; left. vm_compute. discriminate.
Defined.

Lemma read_smc_failure_record_witness :
  (read_smc "TC0D" key_unknown
   = ((0, {| data := replicate 32 0; dataType := replicate 5 Ascii.zero;
             dataSize := 0; kSMC := 0x84 |}),
      played [key_info_request "TC0D"]) /\
   get_tmp "TC0D" FAHRENHEIT key_unknown
   = (0%float, played [key_info_request "TC0D"])) /\
  (read_smc "TC0D" sensor_cut
   = ((0x2bc, {| data := replicate 32 0;
                 dataType := list_ascii_of_string "sp78" ++ [Ascii.zero];
                 dataSize := 2; kSMC := 0 |}),
      played [key_info_request "TC0D"; read_key_request "TC0D" 2]) /\
   get_tmp "TC0D" KELVIN sensor_cut
   = (0%float, played [key_info_request "TC0D"; read_key_request "TC0D" 2])).
Proof.
  split.
  - destruct (read_smc_failure_record "TC0D" key_unknown
                0 (answer 0x84 0 0 []) (played [key_info_request "TC0D"]))
      as [Hfail _]; [reflexivity | ].
    destruct Hfail as [Hread Htmp]; [reflexivity | ].
    split; [exact Hread | exact (Htmp FAHRENHEIT)].
  - destruct (read_smc_failure_record "TC0D" sensor_cut
                0 (answer 0 2 tag_sp78 [])
                (playing [(kIOReturnError, SMCParamStruct.zero)]
                   [key_info_request "TC0D"]))
      as [_ Hok]; [reflexivity | ].
    destruct (Hok ltac:(reflexivity) 0x2bc SMCParamStruct.zero
                (played [key_info_request "TC0D"; read_key_request "TC0D" 2]))
      as [Hread Htmp]; [reflexivity | reflexivity | ].
    split; [exact Hread | apply Htmp; discriminate].
Defined.

End Scripts.

(** * Further properties *)

(** ** The codecs *)

Lemma uchar_val_inj c1 c2 : uchar_val c1 = uchar_val c2 -> c1 = c2.
Proof.
  unfold uchar_val. intros E. apply N2Z.inj in E.
  rewrite <- (ascii_N_embedding c1), <- (ascii_N_embedding c2). now rewrite E.
Qed.

Lemma uchar_val_to_char n : 0 <= n < 256 -> uchar_val (to_char n) = n.
Proof.
  intros Hn. unfold uchar_val, to_char, wrap8.
  rewrite Z.mod_small by (change (2 ^ 8) with 256; lia).
  rewrite N_ascii_embedding.
  - apply Z2N.id. lia.
  - change 256%N with (Z.to_N 256). apply Z2N.inj_lt; lia.
Qed.

Lemma strlen_printable key :
  Forall printable (list_ascii_of_string key) -> strlen key = String.length key.
Proof.
  induction key as [ | c key IH]; [reflexivity | ].
  cbn [list_ascii_of_string strlen String.length]. intros Hp.
  apply Forall_cons in Hp as [Hc Hp].
  rewrite (printable_not_nul _ Hc). f_equal. now apply IH.
Qed.

(** [to_string] writes four characters and nothing else: for every value
    the buffer keeps its length and everything from the fifth character
    on, so the terminator of a five-character buffer is never touched. *)
Theorem to_string_frame (val : Z) (buf : list ascii) :
  length (to_string val buf) = length buf /\
  drop 4 (to_string val buf) = drop 4 buf.
Proof.
  unfold to_string.
  cbn [DATA_TYPE_SIZE seq fold_left to_string_step fst]. split.
  - now rewrite !length_insert.
  - now rewrite !drop_insert_lt by lia.
Qed.

(** The four bytes of a 32-bit value, most significant first. *)
Lemma to_string_bytes (val : Z) (buf : list ascii) :
  0 <= val < 2 ^ 32 -> (4 <= length buf)%nat ->
  to_string val buf
  = [to_char (val / 2 ^ 24); to_char (val / 2 ^ 16 mod 256);
     to_char (val / 2 ^ 8 mod 256); to_char (val mod 256)] ++ drop 4 buf.
Proof.
  intros Hv Hlen.
  rewrite <- to_string_unpack; try assumption.
  - f_equal. change (2 ^ 24) with 16777216. change (2 ^ 16) with 65536.
    change (2 ^ 8) with 256. Z.div_mod_to_equations. lia.
  - change (2 ^ 32) with 4294967296 in Hv. change (2 ^ 24) with 16777216.
    Z.div_mod_to_equations. lia.
  - Z.div_mod_to_equations. lia.
  - Z.div_mod_to_equations. lia.
  - Z.div_mod_to_equations. lia.
Qed.

(** [strcmp] of four characters and a terminator against four characters
    that are not NUL. *)
Lemma strcmp_4 a0 a1 a2 a3 t0 t1 t2 t3 :
  is_nul t0 = false -> is_nul t1 = false ->
  is_nul t2 = false -> is_nul t3 = false ->
  strcmp [a0; a1; a2; a3; Ascii.zero] [t0; t1; t2; t3] = 0 <->
  a0 = t0 /\ a1 = t1 /\ a2 = t2 /\ a3 = t3.
Proof.
  intros N0 N1 N2 N3. cbn [strcmp].
  destruct (Ascii.eqb_spec a0 t0) as [-> | D0].
  2:{ split; [ | tauto]. intros E. exfalso. apply D0, uchar_val_inj. lia. }
  rewrite N0.
  destruct (Ascii.eqb_spec a1 t1) as [-> | D1].
  2:{ split; [ | tauto]. intros E. exfalso. apply D1, uchar_val_inj. lia. }
  rewrite N1.
  destruct (Ascii.eqb_spec a2 t2) as [-> | D2].
  2:{ split; [ | tauto]. intros E. exfalso. apply D2, uchar_val_inj. lia. }
  rewrite N2.
  destruct (Ascii.eqb_spec a3 t3) as [-> | D3].
  2:{ split; [ | tauto]. intros E. exfalso. apply D3, uchar_val_inj. lia. }
  rewrite N3. split; [tauto | reflexivity].
Qed.

(** A type tag of four printable characters matches the text [to_string]
    makes of a 32-bit value exactly when the value is the big-endian
    packing of the tag, that is [to_uint32_t] of it. *)
Theorem tag_matches_iff (val : Z) (tag : string) :
  0 <= val < 2 ^ 32 ->
  String.length tag = 4%nat ->
  Forall printable (list_ascii_of_string tag) ->
  strcmp (to_string val (replicate 5 Ascii.zero)) (list_ascii_of_string tag) = 0
  <-> val = to_uint32_t tag.
Proof.
  intros Hv Hlen Hp.
  destruct tag as [ | t0 [ | t1 [ | t2 [ | t3 [ | t4 tag]]]]];
    try discriminate Hlen.
  cbn [list_ascii_of_string] in *.
  rewrite (to_uint32_t_pack _ _ _ _ Hp).
  apply Forall_cons in Hp as [H0 Hp]. apply Forall_cons in Hp as [H1 Hp].
  apply Forall_cons in Hp as [H2 Hp]. apply Forall_cons in Hp as [H3 _].
  rewrite to_string_bytes by (assumption || (cbn; lia)).
  cbn [replicate drop app].
  rewrite strcmp_4 by now apply printable_not_nul.
  unfold printable in *.
  change (2 ^ 32) with 4294967296 in Hv.
  change (2 ^ 24) with 16777216. change (2 ^ 16) with 65536.
  change (2 ^ 8) with 256.
  split.
  - intros (E0 & E1 & E2 & E3).
    apply (f_equal uchar_val) in E0, E1, E2, E3.
    rewrite uchar_val_to_char in E0, E1, E2, E3
      by (Z.div_mod_to_equations; lia).
    Z.div_mod_to_equations. lia.
  - intros ->.
    repeat split; rewrite <- to_char_uchar_val; f_equal;
      Z.div_mod_to_equations; lia.
Qed.

(** Two keys of four printable characters with the same encoding are the
    same key. *)
Theorem to_uint32_t_injective (k1 k2 : string) :
  String.length k1 = 4%nat -> String.length k2 = 4%nat ->
  Forall printable (list_ascii_of_string k1) ->
  Forall printable (list_ascii_of_string k2) ->
  to_uint32_t k1 = to_uint32_t k2 -> k1 = k2.
Proof.
  intros L1 L2 P1 P2.
  destruct k1 as [ | a0 [ | a1 [ | a2 [ | a3 [ | a4 k1]]]]];
    try discriminate L1.
  destruct k2 as [ | b0 [ | b1 [ | b2 [ | b3 [ | b4 k2]]]]];
    try discriminate L2.
  cbn [list_ascii_of_string] in *.
  rewrite (to_uint32_t_pack _ _ _ _ P1), (to_uint32_t_pack _ _ _ _ P2).
  apply Forall_cons in P1 as [A0 P1]. apply Forall_cons in P1 as [A1 P1].
  apply Forall_cons in P1 as [A2 P1]. apply Forall_cons in P1 as [A3 _].
  apply Forall_cons in P2 as [B0 P2]. apply Forall_cons in P2 as [B1 P2].
  apply Forall_cons in P2 as [B2 P2]. apply Forall_cons in P2 as [B3 _].
  unfold printable in *.
  change (2 ^ 24) with 16777216. change (2 ^ 16) with 65536.
  change (2 ^ 8) with 256. intros E.
  assert (uchar_val a0 = uchar_val b0) by lia.
  assert (uchar_val a1 = uchar_val b1) by lia.
  assert (uchar_val a2 = uchar_val b2) by lia.
  assert (uchar_val a3 = uchar_val b3) by lia.
  f_equal; [ | f_equal; [ | f_equal; [ | f_equal]]];
    now apply uchar_val_inj.
Qed.

(** The zero [to_uint32_t] returns for a key that is not four characters
    long is never the encoding of a key: among the keys of printable
    characters, the result is 0 exactly when the length is not 4. *)
Theorem to_uint32_t_zero_iff (key : string) :
  Forall printable (list_ascii_of_string key) ->
  to_uint32_t key = 0 <-> String.length key <> 4%nat.
Proof.
  intros Hp. pose proof (strlen_printable key Hp) as Hs. split.
  - intros E Hlen.
    destruct key as [ | c0 [ | c1 [ | c2 [ | c3 [ | c4 key]]]]];
      try discriminate Hlen.
    cbn [list_ascii_of_string] in Hp.
    rewrite (to_uint32_t_pack _ _ _ _ Hp) in E.
    apply Forall_cons in Hp as [H0 Hp]. apply Forall_cons in Hp as [H1 Hp].
    apply Forall_cons in Hp as [H2 Hp]. apply Forall_cons in Hp as [H3 _].
    unfold printable in *. lia.
  - intros Hlen. unfold to_uint32_t, SMC_KEY_SIZE. rewrite Hs.
    apply Nat.eqb_neq in Hlen. now rewrite Hlen.
Qed.

(** Decoding an encoded 14-bit value gives the value back exactly when
    it is a multiple of 64. *)
Theorem fpe2_round_trip_iff (v : Z) (data : list Z) :
  0 <= v <= 16383 -> (2 <= length data)%nat ->
  from_fpe2 (to_fpe2 v data) = v <-> v mod 64 = 0.
Proof.
  intros Hv Hlen. rewrite from_fpe2_to_fpe2 by assumption. lia.
Qed.

(** [from_fpe2] on two bytes does not wrap: the result is
    [64 * data[0] + 4 * data[1]], a multiple of 4 that is at most 17340. *)
Lemma from_fpe2_range (data : list Z) :
  0 <= idx data 0 < 256 -> 0 <= idx data 1 < 256 ->
  from_fpe2 data = 64 * idx data 0 + 4 * idx data 1 /\
  0 <= from_fpe2 data <= 17340 /\ from_fpe2 data mod 4 = 0.
Proof.
  intros H0 H1. unfold from_fpe2, wrap32.
  rewrite !Z.shiftl_mul_pow2 by lia.
  change (2 ^ 6) with 64. change (2 ^ 2) with 4.
  change (2 ^ 32) with 4294967296.
  Z.div_mod_to_equations. lia.
Qed.

(** [to_fpe2] keeps only the low 14 bits of the value, writes two bytes
    and leaves the rest of the array alone. *)
Lemma to_fpe2_low_bits (val : Z) (data : list Z) :
  to_fpe2 val data = to_fpe2 (val mod 16384) data /\
  length (to_fpe2 val data) = length data /\
  drop 2 (to_fpe2 val data) = drop 2 data.
Proof.
  unfold to_fpe2. rewrite !wrap8_lxor_shiftl8. split; [ | split].
  - assert (E0 : wrap8 (Z.shiftr val 6) = wrap8 (Z.shiftr (val mod 16384) 6)).
    { unfold wrap8. rewrite !Z.shiftr_div_pow2 by lia.
      change (2 ^ 6) with 64. change (2 ^ 8) with 256.
      Z.div_mod_to_equations. lia. }
    assert (E1 : wrap8 (wrap32 (Z.shiftl val 2))
                 = wrap8 (wrap32 (Z.shiftl (val mod 16384) 2))).
    { unfold wrap8, wrap32. rewrite !Z.shiftl_mul_pow2 by lia.
      change (2 ^ 2) with 4. change (2 ^ 8) with 256.
      change (2 ^ 32) with 4294967296.
      Z.div_mod_to_equations. lia. }
    now rewrite E0, E1.
  - now rewrite !length_insert.
  - now rewrite !drop_insert_lt by lia.
Qed.

(** ** The transport and the transactions *)

Section MoreTransactions.
Context `{smc_h} `{AppleSMC}.

Lemma err_get_code_range raw : 0 <= err_get_code raw <= 16383.
Proof.
  unfold err_get_code. change (Z.land raw 0x3fff) with (Z.land raw (Z.ones 14)).
  rewrite Z.land_ones by lia. change (2 ^ 14) with 16384.
  Z.div_mod_to_equations. lia.
Qed.

Lemma call_smc_driver i o w raw o' k :
  IOConnectCallStructMethod kSMCHandleYPCEvent i o (driver w) = (raw, o', k) ->
  call_smc i o w
  = ((err_get_code raw, o'),
     {| driver := k; calls := calls w ++ [i]; stdout := stdout w |}).
Proof.
  intros E. unfold call_smc. rewrite E.
  destruct (Z.eqb_spec raw kIOReturnSuccess) as [-> | Hne]; reflexivity.
Qed.

(** The channel status [call_smc] gives is always the low 14 bits of the
    code of the driver, also when that code is [kIOReturnSuccess]: it
    lies in [0, 16383], so a driver code that is a multiple of 16384 is
    reported as success; the output structure and the driver's new state
    are those of the one driver call made. *)
Theorem call_smc_code i o w raw o' k :
  IOConnectCallStructMethod kSMCHandleYPCEvent i o (driver w) = (raw, o', k) ->
  call_smc i o w
  = ((err_get_code raw, o'),
     {| driver := k; calls := calls w ++ [i]; stdout := stdout w |}) /\
  0 <= err_get_code raw <= 16383 /\
  (err_get_code raw = kIOReturnSuccess <-> raw mod 16384 = 0).
Proof.
  intros E. split; [ | split].
  - now apply call_smc_driver.
  - apply err_get_code_range.
  - unfold err_get_code, kIOReturnSuccess. change 0x3fff with (Z.ones 14).
    rewrite Z.land_ones by lia. reflexivity.
Qed.

Lemma call_smc_range i o w r o' w' :
  call_smc i o w = ((r, o'), w') -> 0 <= r <= 16383.
Proof.
  destruct (IOConnectCallStructMethod kSMCHandleYPCEvent i o (driver w))
    as [[raw o''] k] eqn:E.
  rewrite (call_smc_driver _ _ _ _ _ _ E).
  intros [= <- _ _]. apply err_get_code_range.
Qed.

(** The requests of a read: always the get-key-info request for the
    encoded key first; then, only when that phase succeeded, one read-key
    request for the same key that echoes the size the controller
    reported.  Nothing is printed. *)
Theorem read_smc_trace key w r1 o1 w1 :
  call_smc (key_info_request key) SMCParamStruct.zero w = ((r1, o1), w1) ->
  calls (read_smc key w).2
  = calls w ++ key_info_request key ::
      (if failed r1 o1 then []
       else [read_key_request key
               (keyInfo.dataSize (SMCParamStruct.keyInfo o1))]) /\
  stdout (read_smc key w).2 = stdout w.
Proof.
  intros E1. rewrite read_smc_phases, E1.
  pose proof (call_smc_world _ _ _ _ _ E1) as [C1 S1].
  destruct (failed r1 o1); [now split | ].
  destruct (call_smc (read_key_request _ _) o1 w1) as [[r2 o2] w2] eqn:E2.
  apply call_smc_world in E2 as [C2 S2].
  assert (calls w2 = calls w ++
            [key_info_request key;
             read_key_request key
               (keyInfo.dataSize (SMCParamStruct.keyInfo o1))])
    by (rewrite C2, C1, <- app_assoc; reflexivity).
  assert (stdout w2 = stdout w) by congruence.
  now destruct (failed r2 o2).
Qed.

(** The requests of a write: the get-key-info request first; then, only
    when that phase succeeded and the sizes agree, one write-key request.
    The [bytes] field of every request is zero: the value to write is
    copied into the output structure handed to the driver, never into
    the input structure.  Nothing is printed. *)
Theorem write_smc_trace key result_smc w r1 o1 w1 :
  call_smc (key_info_request key) SMCParamStruct.zero w = ((r1, o1), w1) ->
  exists reqs,
    reqs = key_info_request key ::
             (if failed r1 o1
                 || negb (dataSize result_smc
                          =? keyInfo.dataSize (SMCParamStruct.keyInfo o1))
              then []
              else [write_key_request key
                      (keyInfo.dataSize (SMCParamStruct.keyInfo o1))]) /\
    calls (write_smc key result_smc w).2 = calls w ++ reqs /\
    Forall (fun q => SMCParamStruct.bytes q = replicate 32 0) reqs /\
    stdout (write_smc key result_smc w).2 = stdout w.
Proof.
  intros E1. eexists. split; [reflexivity | ].
  rewrite write_smc_phases, E1.
  pose proof (call_smc_world _ _ _ _ _ E1) as [C1 S1].
  destruct (failed r1 o1); cbn [orb].
  { repeat split; auto; repeat constructor. }
  destruct (negb _).
  { repeat split; auto; repeat constructor. }
  destruct (call_smc (write_key_request _ _) _ w1) as [[r2 o2] w2] eqn:E2.
  apply call_smc_world in E2 as [C2 S2]. cbn [snd].
  split; [ | split].
  - rewrite C2, C1, <- app_assoc. reflexivity.
  - repeat constructor.
  - congruence.
Qed.

(** [write_smc] returns [kIOReturnBadArgument] exactly when the metadata
    phase succeeded and the caller's size differs from the controller's:
    a channel status is at most 16383 and cannot be mistaken for it. *)
Theorem write_smc_bad_argument_iff key result_smc w r1 o1 w1 :
  call_smc (key_info_request key) SMCParamStruct.zero w = ((r1, o1), w1) ->
  (write_smc key result_smc w).1.1 = kIOReturnBadArgument <->
  failed r1 o1 = false /\
  dataSize result_smc <> keyInfo.dataSize (SMCParamStruct.keyInfo o1).
Proof.
  intros E1. rewrite write_smc_phases, E1.
  pose proof (call_smc_range _ _ _ _ _ _ E1) as R1.
  destruct (failed r1 o1).
  { cbn [fst]. unfold kIOReturnBadArgument. split; [lia | ].
    intros [D _]. discriminate D. }
  destruct (Z.eqb_spec (dataSize result_smc)
              (keyInfo.dataSize (SMCParamStruct.keyInfo o1))) as [Es | Es];
    cbn [negb].
  - destruct (call_smc (write_key_request _ _) _ w1) as [[r2 o2] w2] eqn:E2.
    pose proof (call_smc_range _ _ _ _ _ _ E2) as R2.
    cbn [fst]. unfold kIOReturnBadArgument. split; [lia | tauto].
  - cbn [fst]. tauto.
Qed.

(** A read uses its key only through [to_uint32_t]. *)
Lemma read_smc_key_code k1 k2 w :
  to_uint32_t k1 = to_uint32_t k2 -> read_smc k1 w = read_smc k2 w.
Proof. intros E. unfold read_smc. now rewrite E. Qed.

(** [read_smc] and [get_tmp] do not check the length of the key: a key
    that is not four characters long is sent to the driver encoded as 0,
    whatever its text, so all such keys behave alike, and at least one
    call is made for them. *)
Theorem malformed_key_is_sent_as_zero key (unit : tmp_unit_t) w :
  strlen key <> 4%nat ->
  read_smc key w = read_smc EmptyString w /\
  get_tmp key unit w = get_tmp EmptyString unit w /\
  exists reqs,
    calls (get_tmp key unit w).2 = calls w ++ reqs /\
    (1 <= length reqs)%nat /\
    Forall (fun q => SMCParamStruct.key q = 0) reqs.
Proof.
  intros Hlen.
  assert (E0 : to_uint32_t key = 0).
  { unfold to_uint32_t, SMC_KEY_SIZE.
    apply Nat.eqb_neq in Hlen. now rewrite Hlen. }
  assert (Er : read_smc key w = read_smc EmptyString w)
    by now apply read_smc_key_code.
  split; [exact Er | ]. split.
  - unfold get_tmp, mbind, M_bind, bind. now rewrite Er.
  - destruct (read_smc_requests key w) as (reqs & Hc & _ & Hn & Hk).
    exists reqs. rewrite E0 in Hk. split; [ | split; [lia | exact Hk]].
    rewrite <- Hc. unfold get_tmp, mbind, M_bind, bind, mret, M_ret, ret.
    destruct (read_smc key w) as [[r rs] w']. cbn [snd].
    destruct (negb _); [reflexivity | now destruct unit].
Qed.


(** ** The sensor functions *)

Lemma get_tmp_world key (unit : tmp_unit_t) w :
  (get_tmp key unit w).2 = (read_smc key w).2.
Proof.
  unfold get_tmp, mbind, M_bind, bind, mret, M_ret, ret.
  destruct (read_smc key w) as [[r rs] w']. now destruct (negb _).
Qed.

Lemma get_num_fans_world w : (get_num_fans w).2 = (read_smc "FNum" w).2.
Proof.
  unfold get_num_fans, mbind, M_bind, bind, mret, M_ret, ret.
  destruct (read_smc "FNum" w) as [[r rs] w']. now destruct (negb _).
Qed.

Lemma get_fan_rpm_world (fan_num : Z) w :
  (get_fan_rpm fan_num w).2 = (read_smc "F0Ac" w).2.
Proof.
  unfold get_fan_rpm, mbind, M_bind, bind, mret, M_ret, ret.
  destruct (read_smc "F0Ac" w) as [[r rs] w']. now destruct (negb _).
Qed.

(** The record [set_fan_min_rpm] hands to [write_smc]. *)
Lemma set_fan_min_rpm_write (fan_num rpm : Z) (auth : bool) w :
  set_fan_min_rpm fan_num rpm auth w
  = let '((result, result_smc), w') :=
      write_smc "F0Mn"
        {| data := to_fpe2 rpm (replicate 32 0);
           dataType := replicate 5 Ascii.zero; dataSize := 2; kSMC := 0 |} w in
    ((result =? kIOReturnSuccess) && (kSMC result_smc =? kSMCSuccess), w').
Proof.
  unfold set_fan_min_rpm, mbind, M_bind, bind, mret, M_ret, ret.
  cbn [set_data set_dataSize smc_return_zero data dataType dataSize kSMC].
  destruct (write_smc "F0Mn" _ w) as [[r rs] w'].
  now destruct ((r =? kIOReturnSuccess) && (kSMC rs =? kSMCSuccess)).
Qed.

Lemma write_smc_stdout key result_smc w :
  stdout (write_smc key result_smc w).2 = stdout w.
Proof.
  rewrite write_smc_phases.
  destruct (call_smc (key_info_request key) _ w) as [[r1 o1] w1] eqn:E1.
  apply call_smc_world in E1 as [_ S1].
  destruct (failed r1 o1); [exact S1 | ].
  destruct (negb _); [exact S1 | ].
  destruct (call_smc (write_key_request _ _) _ w1) as [[r2 o2] w2] eqn:E2.
  apply call_smc_world in E2 as [_ S2]. cbn [snd]. congruence.
Qed.

(** The sensor functions that do not check the key print nothing,
    and each of them makes one or two calls to the driver. *)
Theorem sensor_functions_frame key (unit : tmp_unit_t) (fan_num rpm : Z)
    (auth : bool) w :
  let frame (w' : world) :=
    stdout w' = stdout w /\
    exists reqs, calls w' = calls w ++ reqs /\ (1 <= length reqs <= 2)%nat in
  frame (get_tmp key unit w).2 /\ frame (get_num_fans w).2 /\
  frame (get_fan_rpm fan_num w).2 /\
  frame (set_fan_min_rpm fan_num rpm auth w).2.
Proof.
  intros frame.
  assert (Hread : forall k, frame (read_smc k w).2).
  { intros k. destruct (read_smc_requests k w) as (reqs & Hc & Hs & Hn & _).
    split; [exact Hs | now exists reqs]. }
  rewrite get_tmp_world, get_num_fans_world, get_fan_rpm_world.
  repeat split; try apply Hread.
  - rewrite set_fan_min_rpm_write.
    pose proof (write_smc_stdout "F0Mn"
                  {| data := to_fpe2 rpm (replicate 32 0);
                     dataType := replicate 5 Ascii.zero;
                     dataSize := 2; kSMC := 0 |} w) as Hs.
    now destruct (write_smc "F0Mn" _ w) as [[r rs] w'].
  - rewrite set_fan_min_rpm_write.
    destruct (write_smc_requests "F0Mn"
                {| data := to_fpe2 rpm (replicate 32 0);
                   dataType := replicate 5 Ascii.zero;
                   dataSize := 2; kSMC := 0 |} w)
      as (reqs & Hc & Hn & _).
    exists reqs. split; [ | exact Hn].
    now destruct (write_smc "F0Mn" _ w) as [[r rs] w'].
Qed.

(** [set_fan_min_rpm] answers true exactly when the metadata phase for
    F0Mn succeeds, the controller reports a size of 2, and the write-key
    call, made with the two fpe2 bytes of [rpm] in the output structure,
    succeeds on the channel and in the protocol status. *)
Theorem set_fan_min_rpm_true_iff (fan_num rpm : Z) (auth : bool) w r1 o1 w1 :
  call_smc (key_info_request "F0Mn") SMCParamStruct.zero w = ((r1, o1), w1) ->
  (set_fan_min_rpm fan_num rpm auth w).1 = true <->
  failed r1 o1 = false /\
  keyInfo.dataSize (SMCParamStruct.keyInfo o1) = 2 /\
  exists o2 w2,
    call_smc (write_key_request "F0Mn" 2)
      (SMCParamStruct.set_bytes (to_fpe2 rpm (replicate 32 0)) o1) w1
    = ((kIOReturnSuccess, o2), w2) /\
    SMCParamStruct.result o2 = kSMCSuccess.
Proof.
  intros E1. rewrite set_fan_min_rpm_write, write_smc_phases, E1.
  cbn [dataSize data set_kSMC kSMC].
  destruct (failed r1 o1) eqn:F1.
  { cbn [fst set_kSMC kSMC]. apply failed_true in F1. split.
    - intros Hb. apply andb_prop in Hb as [Hr Hk].
      apply Z.eqb_eq in Hr, Hk. tauto.
    - intros [D _]. discriminate D. }
  destruct (Z.eqb_spec 2 (keyInfo.dataSize (SMCParamStruct.keyInfo o1)))
    as [Es | Es]; cbn [negb].
  - rewrite <- Es.
    destruct (call_smc (write_key_request "F0Mn" 2) _ w1)
      as [[r2 o2] w2] eqn:E2.
    cbn [fst set_kSMC kSMC]. split.
    + intros Hb. apply andb_prop in Hb as [Hr Hk].
      apply Z.eqb_eq in Hr, Hk. subst r2.
      split; [reflexivity | split; [reflexivity | ]]. now exists o2, w2.
    + intros (_ & _ & o2' & w2' & [= -> <- <-] & Hk).
      apply Z.eqb_eq in Hk. now rewrite Hk.
  - cbn [fst]. split; [discriminate | ]. intros (_ & Hs & _). congruence.
Qed.

(** [set_fan_min_rpm] keeps only the low 14 bits of [rpm] and ignores
    [auth]: a speed of 16384 or more is written as its remainder modulo
    16384. *)
Theorem set_fan_min_rpm_low_bits (fan_num rpm : Z) (auth auth' : bool)
    (data : list Z) w :
  to_fpe2 rpm data = to_fpe2 (rpm mod 16384) data /\
  set_fan_min_rpm fan_num rpm auth w
  = set_fan_min_rpm fan_num (rpm mod 16384) auth' w.
Proof.
  split; [apply to_fpe2_low_bits | ].
  rewrite !set_fan_min_rpm_write.
  now rewrite (proj1 (to_fpe2_low_bits rpm (replicate 32 0))).
Qed.

(** The speed [get_fan_rpm] returns, when the payload of the read is made
    of bytes, is a multiple of 4 between 0 and 17340. *)
Theorem get_fan_rpm_range (fan_num : Z) w :
  Forall (fun b => 0 <= b < 256) (data (read_smc "F0Ac" w).1.2) ->
  0 <= (get_fan_rpm fan_num w).1 <= 17340 /\
  (get_fan_rpm fan_num w).1 mod 4 = 0.
Proof.
  intros Hb.
  assert (Hidx : forall i, 0 <= idx (data (read_smc "F0Ac" w).1.2) i < 256).
  { intros i. unfold idx.
    destruct (data (read_smc "F0Ac" w).1.2 !! i) as [b | ] eqn:E;
      cbn [default]; [ | lia].
    rewrite Forall_lookup in Hb. exact (Hb i b E). }
  unfold get_fan_rpm, mbind, M_bind, bind, mret, M_ret, ret.
  destruct (read_smc "F0Ac" w) as [[r rs] w']. cbn [fst snd] in *.
  destruct (negb _); cbn [fst]; [split; [lia | reflexivity] | ].
  destruct (from_fpe2_range (data rs) (Hidx 0%nat) (Hidx 1%nat))
    as (_ & Hr & Hm).
  now split.
Qed.

(** [get_num_fans]: the first payload byte when the read of FNum succeeds
    with size 1 and the ui8 tag; -1 when the channel status is not
    success or the size or the tag does not match, which covers every
    failure of the metadata phase; and 0, not -1, when the metadata
    matches and the controller refuses the data phase on a working
    channel. *)
Theorem get_num_fans_spec w :
  (forall o1 w1 o2 w2,
     call_smc (key_info_request "FNum") SMCParamStruct.zero w
     = ((kIOReturnSuccess, o1), w1) ->
     SMCParamStruct.result o1 = kSMCSuccess ->
     keyInfo.dataSize (SMCParamStruct.keyInfo o1) = 1 ->
     strcmp (to_string (keyInfo.dataType (SMCParamStruct.keyInfo o1))
               (replicate 5 Ascii.zero))
            (list_ascii_of_string DATA_TYPE_UINT8) = 0 ->
     call_smc (read_key_request "FNum" 1) o1 w1
     = ((kIOReturnSuccess, o2), w2) ->
     (SMCParamStruct.result o2 = kSMCSuccess ->
      get_num_fans w = (idx (SMCParamStruct.bytes o2) 0, w2)) /\
     (SMCParamStruct.result o2 <> kSMCSuccess ->
      get_num_fans w = (0, w2))) /\
  (forall r rs w',
     read_smc "FNum" w = ((r, rs), w') ->
     r <> kIOReturnSuccess \/ dataSize rs <> 1 \/
     strcmp (dataType rs) (list_ascii_of_string DATA_TYPE_UINT8) <> 0 ->
     get_num_fans w = (-1, w')) /\
  (forall r1 o1 w1,
     call_smc (key_info_request "FNum") SMCParamStruct.zero w
     = ((r1, o1), w1) ->
     failed r1 o1 = true -> get_num_fans w = (-1, w1)).
Proof.
  split; [ | split].
  - intros o1 w1 o2 w2 E1 S1 Hsize Htag E2. rewrite <- Hsize in E2.
    assert (F1 : failed kIOReturnSuccess o1 = false)
      by (apply failed_false; split; [reflexivity | exact S1]).
    unfold get_num_fans, mbind, M_bind, bind, mret, M_ret, ret.
    rewrite read_smc_phases, E1, F1, E2. split; intros S2.
    + assert (F2 : failed kIOReturnSuccess o2 = false)
        by (apply failed_false; split; [reflexivity | exact S2]).
      rewrite F2. cbn [dataSize dataType data read_record].
      rewrite Hsize, Htag. reflexivity.
    + assert (F2 : failed kIOReturnSuccess o2 = true)
        by (apply failed_true; right; exact S2).
      rewrite F2. cbn [dataSize dataType data read_record].
      rewrite Hsize, Htag. reflexivity.
  - intros r rs w' Hread Hbad.
    unfold get_num_fans, mbind, M_bind, bind, mret, M_ret, ret. rewrite Hread.
    destruct (Z.eqb_spec r kIOReturnSuccess) as [Er | Er]; [ | reflexivity].
    destruct (Z.eqb_spec (dataSize rs) 1) as [Es | Es]; [ | reflexivity].
    destruct (Z.eqb_spec (strcmp (dataType rs)
                (list_ascii_of_string DATA_TYPE_UINT8)) 0) as [Et | Et];
      [ | reflexivity].
    tauto.
  - intros r1 o1 w1 E1 F1.
    unfold get_num_fans, mbind, M_bind, bind, mret, M_ret, ret.
    rewrite read_smc_phases, E1, F1. cbn [dataSize set_kSMC smc_return_zero].
    now rewrite andb_false_r.
Qed.

End MoreTransactions.

(** ** Temperatures *)

(** A property checked on each of the 256 bytes holds of every byte. *)
Lemma byte_cases (P : Z -> bool) :
  forallb P (map Z.of_nat (seq 0 256)) = true ->
  forall b, 0 <= b < 256 -> P b = true.
Proof.
  intros Hall b Hb. rewrite forallb_forall in Hall. apply Hall.
  rewrite <- (Z2Nat.id b) by lia. apply in_map, in_seq. lia.
Qed.

Section Temperature.
Context `{smc_h} `{AppleSMC}.

(** [get_tmp] never returns a negative temperature, in any unit: the
    first payload byte is read as an unsigned number of degrees, so the
    Celsius value lies between 0 and 255, also for the bytes 128 to 255. *)
Theorem get_tmp_never_negative key (unit : tmp_unit_t) w :
  0 <= idx (data (read_smc key w).1.2) 0 < 256 ->
  (0 <=? (get_tmp key unit w).1)%float = true /\
  (unit = CELSIUS -> ((get_tmp key unit w).1 <=? 255)%float = true).
Proof.
  intros Hb.
  unfold get_tmp, mbind, M_bind, bind, mret, M_ret, ret.
  destruct (read_smc key w) as [[r rs] w']. cbn [fst snd] in Hb.
  destruct (negb _); cbn [fst]; [now split | ].
  revert Hb. generalize (idx (data rs) 0). intros b Hb.
  destruct unit; split; try discriminate; intros _ || idtac.
  - now apply (byte_cases (fun b => (0 <=? double_of_uint8 b)%float)).
  - now apply (byte_cases (fun b => (double_of_uint8 b <=? 255)%float)).
  - now apply
      (byte_cases (fun b => (0 <=? to_fahrenheit (double_of_uint8 b))%float)).
  - now apply
      (byte_cases (fun b => (0 <=? to_kelvin (double_of_uint8 b))%float)).
Qed.

End Temperature.

(** ** The further properties at concrete inputs *)

Section MoreScripts.
#[local] Existing Instance apple_smc_h.
#[local] Existing Instance scripted.

Lemma printable_fpe2 : Forall printable (list_ascii_of_string "fpe2").
Proof. repeat constructor; unfold printable; cbv; discriminate. Qed.

Lemma printable_F0Ac : Forall printable (list_ascii_of_string "F0Ac").
Proof. repeat constructor; unfold printable; cbv; discriminate. Qed.

Lemma printable_TC0 : Forall printable (list_ascii_of_string "TC0").
Proof. repeat constructor; unfold printable; cbv; discriminate. Qed.

Lemma tag_matches_iff_witness :
  strcmp (to_string tag_fpe2 (replicate 5 Ascii.zero))
    (list_ascii_of_string "fpe2") = 0
  <-> tag_fpe2 = to_uint32_t "fpe2".
Proof.
  apply (tag_matches_iff tag_fpe2 "fpe2").
  - unfold tag_fpe2. change (2 ^ 32) with 4294967296. lia.
  - reflexivity.
  - exact printable_fpe2.
Defined.

Lemma to_uint32_t_injective_witness : "F0Ac"%string = "F0Ac"%string.
Proof.
  apply (to_uint32_t_injective "F0Ac" "F0Ac");
    reflexivity || exact printable_F0Ac.
Defined.

Lemma to_uint32_t_zero_iff_witness :
  to_uint32_t "TC0" = 0 <-> String.length "TC0" <> 4%nat.
Proof. apply (to_uint32_t_zero_iff "TC0"). exact printable_TC0. Defined.

Lemma fpe2_round_trip_iff_witness :
  from_fpe2 (to_fpe2 1200 (replicate 32 0)) = 1200 <-> 1200 mod 64 = 0.
Proof.
  apply (fpe2_round_trip_iff 1200 (replicate 32 0)); [lia | simpl; lia].
Defined.

Lemma call_smc_code_witness :
  call_smc (key_info_request "TC0D") SMCParamStruct.zero channel_down
  = ((err_get_code kIOReturnError, SMCParamStruct.zero),
     {| driver := [] : @kext scripted;
        calls := calls channel_down ++ [key_info_request "TC0D"];
        stdout := stdout channel_down |}) /\
  0 <= err_get_code kIOReturnError <= 16383 /\
  (err_get_code kIOReturnError = kIOReturnSuccess <->
   kIOReturnError mod 16384 = 0).
Proof.
  apply (call_smc_code (key_info_request "TC0D") SMCParamStruct.zero
           channel_down kIOReturnError SMCParamStruct.zero
           ([] : @kext scripted)).
  reflexivity.
Defined.

Lemma read_smc_trace_witness :
  calls (read_smc "TC0D" sensor_50).2
  = calls sensor_50 ++ key_info_request "TC0D" ::
      (if failed 0 (answer 0 2 tag_sp78 []) then []
       else [read_key_request "TC0D" 2]) /\
  stdout (read_smc "TC0D" sensor_50).2 = stdout sensor_50.
Proof.
  apply (read_smc_trace "TC0D" sensor_50 0 (answer 0 2 tag_sp78 [])
           (playing [(0, answer 0 2 tag_sp78 [50; 0])]
              [key_info_request "TC0D"])).
  reflexivity.
Defined.

Lemma write_smc_trace_witness :
  exists reqs,
    reqs = key_info_request "F0Mn" ::
             (if failed 0 (answer 0 2 tag_fpe2 [])
                 || negb (dataSize four_bytes =? 2)
              then [] else [write_key_request "F0Mn" 2]) /\
    calls (write_smc "F0Mn" four_bytes fan_limit).2
    = calls fan_limit ++ reqs /\
    Forall (fun q => SMCParamStruct.bytes q = replicate 32 0) reqs /\
    stdout (write_smc "F0Mn" four_bytes fan_limit).2 = stdout fan_limit.
Proof.
  apply (write_smc_trace "F0Mn" four_bytes fan_limit 0
           (answer 0 2 tag_fpe2 [])
           (playing [(0, answer 0 0 0 [])] [key_info_request "F0Mn"])).
  reflexivity.
Defined.

Lemma write_smc_bad_argument_iff_witness :
  (write_smc "F0Mn" four_bytes fan_limit).1.1 = kIOReturnBadArgument <->
  failed 0 (answer 0 2 tag_fpe2 []) = false /\ dataSize four_bytes <> 2.
Proof.
  apply (write_smc_bad_argument_iff "F0Mn" four_bytes fan_limit 0
           (answer 0 2 tag_fpe2 [])
           (playing [(0, answer 0 0 0 [])] [key_info_request "F0Mn"])).
  reflexivity.
Defined.

Lemma malformed_key_is_sent_as_zero_witness :
  read_smc "TC0" key_unknown = read_smc EmptyString key_unknown /\
  get_tmp "TC0" CELSIUS key_unknown = get_tmp EmptyString CELSIUS key_unknown /\
  exists reqs,
    calls (get_tmp "TC0" CELSIUS key_unknown).2 = calls key_unknown ++ reqs /\
    (1 <= length reqs)%nat /\
    Forall (fun q => SMCParamStruct.key q = 0) reqs.
Proof.
  apply (malformed_key_is_sent_as_zero "TC0" CELSIUS key_unknown).
  discriminate.
Defined.

Lemma set_fan_min_rpm_true_iff_witness :
  (set_fan_min_rpm 0 2000 false fan_limit).1 = true <->
  failed 0 (answer 0 2 tag_fpe2 []) = false /\
  2 = 2 /\
  exists o2 w2,
    call_smc (write_key_request "F0Mn" 2)
      (SMCParamStruct.set_bytes (to_fpe2 2000 (replicate 32 0))
         (answer 0 2 tag_fpe2 []))
      (playing [(0, answer 0 0 0 [])] [key_info_request "F0Mn"])
    = ((kIOReturnSuccess, o2), w2) /\
    SMCParamStruct.result o2 = kSMCSuccess.
Proof.
  apply (set_fan_min_rpm_true_iff 0 2000 false fan_limit 0
           (answer 0 2 tag_fpe2 [])
           (playing [(0, answer 0 0 0 [])] [key_info_request "F0Mn"])).
  reflexivity.
Defined.

Lemma get_fan_rpm_range_witness :
  0 <= (get_fan_rpm 0 fan_1024).1 <= 17340 /\
  (get_fan_rpm 0 fan_1024).1 mod 4 = 0.
Proof.
  apply (get_fan_rpm_range 0 fan_1024).
  vm_compute. repeat constructor; discriminate.
Defined.

Lemma get_tmp_never_negative_witness :
  (0 <=? (get_tmp "TC0D" CELSIUS sensor_50).1)%float = true /\
  (CELSIUS = CELSIUS ->
   ((get_tmp "TC0D" CELSIUS sensor_50).1 <=? 255)%float = true).
Proof.
  apply (get_tmp_never_negative "TC0D" CELSIUS sensor_50).
  vm_compute. split; [discriminate | reflexivity].
Defined.

Lemma get_num_fans_spec_witness :
  get_num_fans fans_2
  = (2, played [key_info_request "FNum"; read_key_request "FNum" 1]) /\
  get_num_fans fans_refused
  = (0, played [key_info_request "FNum"; read_key_request "FNum" 1]) /\
  get_num_fans sensor_50
  = (-1, played [key_info_request "FNum"; read_key_request "FNum" 2]) /\
  get_num_fans key_unknown = (-1, played [key_info_request "FNum"]).
Proof.
  split; [ | split; [ | split]].
  - apply (proj1 (proj1 (get_num_fans_spec fans_2)
                      (answer 0 1 tag_ui8 [])
                      (playing [(0, answer 0 1 tag_ui8 [2])]
                         [key_info_request "FNum"])
                      (answer 0 1 tag_ui8 [2])
                      (played [key_info_request "FNum";
                               read_key_request "FNum" 1])
                      ltac:(reflexivity) ltac:(reflexivity)
                      ltac:(reflexivity) ltac:(reflexivity)
                      ltac:(reflexivity))).
    reflexivity.
  - apply (proj2 (proj1 (get_num_fans_spec fans_refused)
                      (answer 0 1 tag_ui8 [])
                      (playing [(0, answer 1 0 0 [])]
                         [key_info_request "FNum"])
                      (answer 1 0 0 [])
                      (played [key_info_request "FNum";
                               read_key_request "FNum" 1])
                      ltac:(reflexivity) ltac:(reflexivity)
                      ltac:(reflexivity) ltac:(reflexivity)
                      ltac:(reflexivity))).
    vm_compute. discriminate.
  - apply (proj1 (proj2 (get_num_fans_spec sensor_50))
             0 (read_smc "FNum" sensor_50).1.2
             (played [key_info_request "FNum"; read_key_request "FNum" 2])).
    + reflexivity.
    + right; left. vm_compute. discriminate.
  - apply (proj2 (proj2 (get_num_fans_spec key_unknown))
             0 (answer 0x84 0 0 []) (played [key_info_request "FNum"]));
      reflexivity.
Defined.

End MoreScripts.
